(** * nwhead/support.py: support sets for the NW head

    A shallow embedding of [SupportSet], [SupportSetTrain] and
    [SupportSetEval].  Python objects are records whose late-bound
    attributes are option slots ([None] = the name is not in the instance
    dictionary), exceptions are values carrying their class chain, and the
    external collaborators of [nwhead.utils] (samplers, neighbour indexes,
    k-means) are interfaces. *)

From Stdlib Require Import ZArith QArith.
From stdpp Require Import gmap strings list sorting.

Local Open Scope string_scope.
Local Open Scope list_scope.
Local Open Scope Z_scope.

(** ** Exceptions and results *)

Module Py.

(** A raised exception: the names of its class and of the base classes
    (method resolution order, own class first), and its message. *)
Record exn := Exn { exn_mro : list string; exn_msg : string }.

Definition exn_name (e : exn) : string := hd "" (exn_mro e).

(** [isinstance(e, cls)], which is also what [except cls] tests. *)
Definition isinstance (e : exn) (cls : string) : bool :=
  bool_decide (cls ∈ exn_mro e).

Definition AssertionError : exn :=
  Exn ["AssertionError"; "Exception"; "BaseException"] "".
Definition AttributeError (msg : string) : exn :=
  Exn ["AttributeError"; "Exception"; "BaseException"] msg.
Definition NotImplementedError : exn :=
  Exn ["NotImplementedError"; "RuntimeError"; "Exception"; "BaseException"] "".
Definition IndexError (msg : string) : exn :=
  Exn ["IndexError"; "LookupError"; "Exception"; "BaseException"] msg.
Definition KeyError (msg : string) : exn :=
  Exn ["KeyError"; "LookupError"; "Exception"; "BaseException"] msg.
Definition ValueError (msg : string) : exn :=
  Exn ["ValueError"; "Exception"; "BaseException"] msg.
Definition RuntimeError (msg : string) : exn :=
  Exn ["RuntimeError"; "Exception"; "BaseException"] msg.
Definition TypeError (msg : string) : exn :=
  Exn ["TypeError"; "Exception"; "BaseException"] msg.

Inductive result (A : Type) : Type :=
| Ok (a : A)
| Raise (e : exn).
Arguments Ok {A} a.
Arguments Raise {A} e.

#[export] Instance result_ret : MRet result := fun _ a => Ok a.
#[export] Instance result_bind : MBind result := fun _ _ f m =>
  match m with
  | Ok a => f a
  | Raise e => Raise e
  end.

Definition is_ok {A} (r : result A) : bool :=
  match r with Ok _ => true | Raise _ => false end.

(** [assert b] *)
Definition assert (b : bool) : result unit :=
  if b then Ok tt else Raise AssertionError.

(** Reading attribute [name] of an instance of class [cls]. *)
Definition getattr {A} (cls name : string) (slot : option A) : result A :=
  match slot with
  | Some a => Ok a
  | None =>
      Raise (AttributeError ("'" +:+ cls +:+ "' object has no attribute '" +:+ name +:+ "'"))
  end.

(** A list comprehension whose element expression may raise. *)
Fixpoint mapR {A B} (f : A → result B) (l : list A) : result (list B) :=
  match l with
  | [] => Ok []
  | a :: l' => b ← f a; bs ← mapR f l'; Ok (b :: bs)
  end.

End Py.
Import Py.

(** ** numpy and torch array operations used by the module *)

Module Np.

(** Insertion of a value into an ascending duplicate-free list. *)
Fixpoint insert_uniq (x : Z) (l : list Z) : list Z :=
  match l with
  | [] => [x]
  | a :: l' =>
      if x <? a then x :: a :: l'
      else if x =? a then a :: l'
      else a :: insert_uniq x l'
  end.

(** [np.unique(a)]: the sorted distinct values of [a]. *)
Definition unique (a : list Z) : list Z := foldr insert_uniq [] a.

(** [(a == v).nonzero()[0]]: the positions holding [v], ascending. *)
Fixpoint nonzero_eq_from (i : nat) (a : list Z) (v : Z) : list nat :=
  match a with
  | [] => []
  | x :: a' =>
      if x =? v then i :: nonzero_eq_from (S i) a' v
      else nonzero_eq_from (S i) a' v
  end.
Definition nonzero_eq (a : list Z) (v : Z) : list nat := nonzero_eq_from 0 a v.

(** [a[indices]] with an integer index array; out of range raises. *)
Definition take {A} (a : list A) (indices : list nat) : result (list A) :=
  mapR (fun i => match a !! i with
                 | Some x => Ok x
                 | None => Raise (IndexError "index out of bounds")
                 end) indices.

(** [a[labels == c]] with a boolean mask; the mask must have the length of
    [a]. *)
Fixpoint mask_eq {A} (a : list A) (labels : list Z) (c : Z) : result (list A) :=
  match a, labels with
  | [], [] => Ok []
  | x :: a', y :: labels' =>
      r ← mask_eq a' labels' c;
      Ok (if y =? c then x :: r else r)
  | _, _ => Raise (IndexError "The shape of the mask does not match the indexed tensor")
  end.

(** [np.concatenate(arrays)]: at least one array is needed. *)
Definition concatenate {A} (arrays : list (list A)) : result (list A) :=
  match arrays with
  | [] => Raise (ValueError "need at least one array to concatenate")
  | _ => Ok (concat arrays)
  end.

(** [torch.arange(n)] *)
Definition arange (n : nat) : list Z := Z.of_nat <$> seq 0 n.

(** [torch.unique(t, return_counts=True)] *)
Definition unique_counts (t : list Z) : list Z * list Z :=
  let u := unique t in
  (u, (fun c => Z.of_nat (count_occ Z.eq_dec t c)) <$> u).

(** [torch.equal] on one-dimensional integer tensors. *)
Definition equal (a b : list Z) : bool := bool_decide (a = b).

End Np.

(** ** Dataset objects *)

(** A dataset handed in by the caller: [len(d)] and [d.targets]. *)
Record UserDataset := { ud_len : nat; ud_targets : list Z }.

(** The [support_set] argument of the constructors: one dataset, or a
    Python list of datasets. *)
Inductive SupportArg :=
| OneDataset (d : UserDataset)
| DatasetList (ds : list UserDataset).

(** Modelled from the spec: [nwhead.utils.DatasetMetadata] is not in the
    sources; following the "labeled dataset view" contract it wraps a
    dataset with a per-item metadata array and keeps its length. *)
Record DatasetMetadata := { dm_dataset : UserDataset; dm_metadata : list Z }.

(** [torch.utils.data.Subset] with the [targets] attribute attached at
    line 55. *)
Record Subset := {
  subset_dataset : DatasetMetadata;
  subset_indices : list nat;
  subset_targets : list Z
}.

(** [torch.utils.data.ConcatDataset] with the [targets] attribute attached
    at line 44. *)
Record ConcatDataset := { concat_datasets : list Subset; concat_targets : list Z }.

(** [self.combined_dataset] is a wrapped dataset (lines 23, 38) or a
    concatenation (line 33). *)
Inductive Combined :=
| CombinedMeta (d : DatasetMetadata)
| CombinedConcat (c : ConcatDataset).

Definition len_meta (d : DatasetMetadata) : nat := ud_len (dm_dataset d).
Definition len_subset (s : Subset) : nat := length (subset_indices s).
Definition len_concat (c : ConcatDataset) : nat :=
  sum_list (len_subset <$> concat_datasets c).
Definition len_combined (c : Combined) : nat :=
  match c with
  | CombinedMeta d => len_meta d
  | CombinedConcat c => len_concat c
  end.

(** ** class SupportSet *)

Module SupportSet.

Record t := {
  y_array : list Z;
  n_classes : nat;
  env_array : list Z;
  combined_dataset : option Combined;
  env_datasets : option (list Subset);
  env_map : option (gmap Z nat)
}.

Definition cls : string := "SupportSet".

Definition set_env_map (self : t) (m : gmap Z nat) : t :=
  {| y_array := y_array self; n_classes := n_classes self;
     env_array := env_array self; combined_dataset := combined_dataset self;
     env_datasets := env_datasets self; env_map := Some m |}.
Definition set_env_datasets (self : t) (e : list Subset) : t :=
  {| y_array := y_array self; n_classes := n_classes self;
     env_array := env_array self; combined_dataset := combined_dataset self;
     env_datasets := Some e; env_map := env_map self |}.
Definition set_combined_dataset (self : t) (c : Combined) : t :=
  {| y_array := y_array self; n_classes := n_classes self;
     env_array := env_array self; combined_dataset := Some c;
     env_datasets := env_datasets self; env_map := env_map self |}.

(** [{i:i for i in range(n)}] *)
Definition identity_map (n : nat) : gmap Z nat :=
  list_to_map ((fun i => (Z.of_nat i, i)) <$> seq 0 n).

(** [ConcatDataset(datasets)]: torch asserts that the list is not empty. *)
Definition new_ConcatDataset (datasets : list Subset) : result (list Subset) :=
  match datasets with
  | [] => Raise AssertionError
  | _ => Ok datasets
  end.

(** Lines 41-46.  The targets are read from [self.env_datasets], not from
    the argument. *)
Definition _combine_env_datasets (self : t) (env_datasets_arg : list Subset)
  : result ConcatDataset * t :=
  let self := set_env_map self (identity_map (length env_datasets_arg)) in
  (datasets ← new_ConcatDataset env_datasets_arg;
   envs ← getattr cls "env_datasets" (env_datasets self);
   targets ← Np.concatenate (subset_targets <$> envs);
   let combined := {| concat_datasets := datasets; concat_targets := targets |} in
   _ ← assert (bool_decide (len_concat combined = length (concat_targets combined)));
   Ok combined,
   self).

(** The loop of lines 51-56 from position [i] on, with the dictionary and
    the list built so far. *)
Fixpoint separate_loop (y_array env_array : list Z) (combined : DatasetMetadata)
    (i : nat) (attrs : list Z) (env_map : gmap Z nat) (acc : list Subset)
  : result (list Subset) * gmap Z nat :=
  match attrs with
  | [] => (Ok acc, env_map)
  | attr :: rest =>
      let env_map := <[attr := i]> env_map in
      let indices := Np.nonzero_eq env_array attr in
      match Np.take y_array indices with
      | Raise e => (Raise e, env_map)
      | Ok targets =>
          let env_dataset :=
            {| subset_dataset := combined; subset_indices := indices;
               subset_targets := targets |} in
          separate_loop y_array env_array combined (S i) rest env_map
            (acc ++ [env_dataset])
      end
  end.

(** Lines 48-57. *)
Definition _separate_env_datasets (self : t) (combined : DatasetMetadata)
  : result (list Subset) * t :=
  let '(r, m) :=
    separate_loop (y_array self) (env_array self) combined 0
      (Np.unique (env_array self)) ∅ [] in
  (r, set_env_map self m).

(** [all(isinstance(d, Dataset) for d in support_set)] of line 26 on a
    single dataset: iterating it yields its samples, none of which is a
    Dataset, so the test holds only when there is nothing to iterate. *)
Definition all_items_are_datasets (d : UserDataset) : bool :=
  bool_decide (ud_len d = 0%nat).

(** Lines 10-39.  Line 15 reads [support_set.targets] before the shape of
    the argument is looked at, and a Python list has no such attribute. *)
Definition __init__ (support_set : SupportArg) (n_classes : nat)
    (env_array : option (list Z)) : result t :=
  match support_set with
  | DatasetList _ =>
      Raise (AttributeError "'list' object has no attribute 'targets'")
  | OneDataset d =>
      let y_array := ud_targets d in
      match env_array with
      | Some env =>
          let wrapped := {| dm_dataset := d; dm_metadata := env |} in
          let self :=
            {| y_array := y_array; n_classes := n_classes; env_array := env;
               combined_dataset := Some (CombinedMeta wrapped);
               env_datasets := None; env_map := None |} in
          let '(r, self) := _separate_env_datasets self wrapped in
          envs ← r; Ok (set_env_datasets self envs)
      | None =>
          if all_items_are_datasets d then
            (* lines 27-33 on a dataset without items: enumerating it
               yields nothing, so does iterating its wrapper *)
            let wrapped := {| dm_dataset := d; dm_metadata := [] |} in
            let self :=
              {| y_array := y_array; n_classes := n_classes; env_array := [];
                 combined_dataset := None;
                 env_datasets := Some []; env_map := None |} in
            let '(r, self) := _combine_env_datasets self [] in
            c ← r; Ok (set_combined_dataset self (CombinedConcat c))
          else
            let env := replicate (ud_len d) 0 in
            let wrapped := {| dm_dataset := d; dm_metadata := env |} in
            let self :=
              {| y_array := y_array; n_classes := n_classes; env_array := env;
                 combined_dataset := Some (CombinedMeta wrapped);
                 env_datasets := None; env_map := None |} in
            let '(r, self) := _separate_env_datasets self wrapped in
            envs ← r; Ok (set_env_datasets self envs)
      end
  end.

End SupportSet.

(** ** The balanced sampler collaborator *)

Inductive LoaderSource :=
| FromCombined (c : Combined)
| FromSubset (s : Subset).

(** The contract of [nwhead.utils.InfiniteUniformClassLoader], which is not
    part of the module: construction from a dataset, a shot count and an
    optional class count; [iter]; and [next], called with or without a
    label batch, which yields [(sx, sy, sm)] or raises and moves the
    sampler on. *)
Class BalancedSampler (S X M : Type) := {
  InfiniteUniformClassLoader : LoaderSource → nat → option nat → result S;
  iter : S → result S;
  next : S → option (list Z) → result (X * list Z * M) * S
}.

(** ** class SupportSetTrain *)

Module SupportSetTrain.
Section WithSampler.
Context {S X M : Type} `{!BalancedSampler S X M}.

(** [self.train_iter] is one loader (line 98) or a list of iterators
    (line 102). *)
Inductive TrainIter :=
| OneLoader (s : S)
| IterList (l : list S).

Record t := {
  base : SupportSet.t;
  train_type : string;
  n_shot : nat;
  n_way : option nat;
  train_iter : TrainIter;
  (** read at line 110 *)
  num_per_class : option Z
}.

Definition cls : string := "SupportSetTrain".

Definition set_train_iter (self : t) (it : TrainIter) : t :=
  {| base := base self; train_type := train_type self; n_shot := n_shot self;
     n_way := n_way self; train_iter := it;
     num_per_class := num_per_class self |}.

(** The random draws of one call: the position picked by
    [np.random.choice] and the value of [random.random()]. *)
Record Draws := { choice : nat; u : Q }.

(** Lines 94-103, on the attributes set before line 73. *)
Definition _build_iter (b : SupportSet.t) (train_type : string) (n_shot : nat)
    (n_way : option nat) : result TrainIter :=
  if String.eqb train_type "random" then
    c ← getattr cls "combined_dataset" (SupportSet.combined_dataset b);
    l ← InfiniteUniformClassLoader (FromCombined c) n_shot n_way;
    Ok (OneLoader l)
  else
    envs ← getattr cls "env_datasets" (SupportSet.env_datasets b);
    its ← mapR (fun env =>
                  l ← InfiniteUniformClassLoader (FromSubset env) n_shot None;
                  iter l) envs;
    Ok (IterList its).

(** Lines 61-73. *)
Definition __init__ (support_set : SupportArg) (n_classes : nat)
    (train_type : string) (n_shot : nat) (n_way : option nat)
    (env_array : option (list Z)) : result t :=
  b ← SupportSet.__init__ support_set n_classes env_array;
  it ← _build_iter b train_type n_shot n_way;
  Ok {| base := b; train_type := train_type; n_shot := n_shot; n_way := n_way;
        train_iter := it; num_per_class := None |}.

(** What reading [self.num_per_class] raises when the attribute is not
    there. *)
Definition missing_num_per_class : exn :=
  AttributeError "'SupportSetTrain' object has no attribute 'num_per_class'".

(** Lines 105-110.  The branch of line 106 ends in [pass], so the
    statements after it run for every policy. *)
Definition _verify_sy (self : t) (sy : list Z) : result unit :=
  let _ := if String.eqb (train_type self) "unbalanced" then tt else tt in
  let '(unique_labels, counts) := Np.unique_counts sy in
  _ ← assert (Np.equal unique_labels (Np.arange (SupportSet.n_classes (base self))));
  k ← getattr cls "num_per_class" (num_per_class self);
  assert (Np.equal counts ((fun _ => 1 * k) <$> unique_labels)).

(** [torch.equal(env_index, torch.ones_like(env_index) * env_index[0])] *)
Definition all_equal_first (env_index : list Z) : result bool :=
  match env_index with
  | [] => Raise (IndexError "index 0 is out of bounds for dimension 0 with size 0")
  | e0 :: _ => Ok (Np.equal env_index ((fun _ => 1 * e0) <$> env_index))
  end.

(** [random.random() < 0.01] *)
Definition audit_due (rnd : Draws) : bool := negb (Qle_bool (1 # 100) (u rnd)).

(** Lines 77-86: the sampler call of the policy. *)
Definition sample (self : t) (y : list Z) (env_index : list Z) (rnd : Draws)
  : result (X * list Z * M) * t :=
  if String.eqb (train_type self) "mixmatch" then
    match train_iter self with
    | IterList l =>
        match l !! (choice rnd `mod` length l)%nat with
        | Some it =>
            let '(r, it') := next it None in
            (r, set_train_iter self (IterList (<[(choice rnd `mod` length l)%nat := it']> l)))
        | None => (Raise (ValueError "'a' cannot be empty unless no samples are taken"), self)
        end
    | OneLoader _ => (Raise (ValueError "a must be 1-dimensional or an integer"), self)
    end
  else if String.eqb (train_type self) "match" then
    match all_equal_first env_index with
    | Raise e => (Raise e, self)
    | Ok false => (Raise AssertionError, self)
    | Ok true =>
        match getattr cls "env_map" (SupportSet.env_map (base self)) with
        | Raise e => (Raise e, self)
        | Ok env_map =>
            match env_map !! hd 0 env_index with
            | None => (Raise (KeyError "env_index[0]"), self)
            | Some meta_idx =>
                match train_iter self with
                | IterList l =>
                    match l !! meta_idx with
                    | Some it =>
                        let '(r, it') := next it None in
                        (r, set_train_iter self (IterList (<[meta_idx := it']> l)))
                    | None => (Raise (IndexError "list index out of range"), self)
                    end
                | OneLoader _ =>
                    (Raise (TypeError "object is not subscriptable"), self)
                end
            end
        end
    end
  else
    match train_iter self with
    | OneLoader s =>
        let '(r, s') := next s (Some y) in
        (r, set_train_iter self (OneLoader s'))
    | IterList _ =>
        (Raise (AttributeError "'list' object has no attribute 'next'"), self)
    end.

(** Lines 75-92. *)
Definition get_support (self : t) (y : list Z) (env_index : list Z) (rnd : Draws)
  : result (X * list Z * M) * t :=
  let '(r, self) := sample self y env_index rnd in
  (batch ← r;
   _ ← (if audit_due rnd then _verify_sy self (snd (fst batch)) else Ok tt);
   Ok batch,
   self).

End WithSampler.
Arguments t S : clear implicits.
Arguments TrainIter S : clear implicits.
End SupportSetTrain.

(** ** The collaborators of the evaluation provider *)

(** The contracts of [FeatureDataset] with [InfiniteUniformClassLoader]
    over features, [FullDataset], [KNN], [HNSW] (all of [nwhead.utils]) and
    of sklearn's [KMeans], none of which is part of the module.  [V] is a
    feature row, [Mt] the metadata of a feature set, [Qy] a query, [R] the
    state of the random iterator, [K] and [H] the two indexes, [F] a full
    dataset. *)
Class EvalCollaborators (V Mt Qy R K H F : Type) := {
  (** [iter(InfiniteUniformClassLoader(FeatureDataset(feat, y, meta), n_shot))] *)
  feature_iter : list V → list Z → Mt → nat → result R;
  (** [random_iter.next()] *)
  feature_next : R → result (list V * list Z * Mt) * R;
  KNN : list V → list Z → nat → result K;
  knn_call : K → option Qy → result (list V * list Z);
  HNSW : list V → list Z → nat → result H;
  hnsw_call : H → option Qy → result (list V * list Z);
  FullDataset : Subset → nat → result F;
  (** [KMeans(n_clusters=n, random_state=0).fit(X).cluster_centers_] *)
  KMeans_fit : nat → list V → result (list V)
}.

(** ** class SupportSetEval *)

Module SupportSetEval.
Section WithCollaborators.
Context {V Mt Qy R K H F : Type} `{!EvalCollaborators V Mt Qy R K H F}.

(** [torch.utils.data.DataLoader(env, batch_size=128, shuffle=False,
    num_workers=0)] *)
Record DataLoader := {
  dl_dataset : F; dl_batch_size : nat; dl_shuffle : bool; dl_num_workers : nat
}.

Record t := {
  base : SupportSet.t;
  n_shot_random : nat;
  n_shot_full : nat;
  n_shot_cluster : nat;
  n_neighbors : nat;
  full_datasets : list F;
  support_loaders : list DataLoader;
  (** the attributes assigned by [build_infer_iters] only *)
  full_feat : option (list V);
  full_y : option (list Z);
  full_meta : option Mt;
  full_feat_sep : option (list (list V));
  full_y_sep : option (list (list Z));
  full_meta_sep : option (list Mt);
  cluster_feat : option (list V);
  cluster_y : option (list Z);
  random_iter : option R;
  knn : option K;
  hnsw : option H
}.

Definition cls : string := "SupportSetEval".

(** What [get_support] returns: a pair of tensors, or for [ensemble] a pair
    of per-environment lists. *)
Inductive Support :=
| Tensors (sfeat : list V) (sy : list Z)
| PerEnv (sfeat : list (list V)) (sy : list (list Z)).

(** Lines 173-182. *)
Definition _build_full_loader (b : SupportSet.t) (n_shot_full : nat)
  : result (list F * list DataLoader) :=
  envs ← getattr cls "env_datasets" (SupportSet.env_datasets b);
  fds ← mapR (fun env => (FullDataset env n_shot_full : result F)) envs;
  Ok (fds,
      map (fun env => {| dl_dataset := env; dl_batch_size := 128%nat;
                         dl_shuffle := false; dl_num_workers := 0%nat |}) fds).

(** Lines 114-128. *)
Definition __init__ (support_set : SupportArg) (n_classes : nat)
    (n_shot_random n_shot_full n_shot_cluster n_neighbors : nat)
    (env_array : option (list Z)) : result t :=
  b ← SupportSet.__init__ support_set n_classes env_array;
  fl ← _build_full_loader b n_shot_full;
  Ok {| base := b; n_shot_random := n_shot_random; n_shot_full := n_shot_full;
        n_shot_cluster := n_shot_cluster; n_neighbors := n_neighbors;
        full_datasets := fst fl; support_loaders := snd fl;
        full_feat := None; full_y := None; full_meta := None;
        full_feat_sep := None; full_y_sep := None; full_meta_sep := None;
        cluster_feat := None; cluster_y := None; random_iter := None;
        knn := None; hnsw := None |}.

(** [torch.cat(tensors, dim=0)]: at least one tensor is needed. *)
Definition torch_cat (tensors : list (list V)) : result (list V) :=
  match tensors with
  | [] => Raise (ValueError "torch.cat(): expected a non-empty list of Tensors")
  | _ => Ok (concat tensors)
  end.

(** The loop of lines 196-211 with [closest=False], the value line 140
    calls it with: the centroids and the labels appended class by class. *)
Fixpoint clusters_loop (embeddings : list V) (labels : list Z) (img_ids : list Z)
    (n_clusters : nat) (classes : list Z) (sfeat : list (list V)) (slabel : list Z)
  : result (list (list V) * list Z) :=
  match classes with
  | [] => Ok (sfeat, slabel)
  | c :: rest =>
      embeddings_class ← Np.mask_eq embeddings labels c;
      img_ids_class ← Np.mask_eq img_ids labels c;
      centroids ← KMeans_fit n_clusters embeddings_class;
      clusters_loop embeddings labels img_ids n_clusters rest
        (sfeat ++ [centroids]) (slabel ++ replicate n_clusters c)
  end.

(** [centroids] are the prototypes of class [c]: [n] rows that the
    clustering returned for the feature rows labelled [c]. *)
Definition is_prototypes (embeddings : list V) (labels : list Z) (n : nat)
    (c : Z) (centroids : list V) : Prop :=
  length centroids = n ∧
  ∃ rows, Np.mask_eq embeddings labels c = Ok rows ∧ KMeans_fit n rows = Ok centroids.

(** Lines 184-215 with [closest=False]. *)
Definition _compute_clusters (self : t) : result (list V * list Z) :=
  embeddings ← getattr cls "full_feat" (full_feat self);
  labels ← getattr cls "full_y" (full_y self);
  let n_clusters := n_shot_cluster self in
  let img_ids := Np.arange (length embeddings) in
  acc ← clusters_loop embeddings labels img_ids n_clusters (Np.unique labels) [] [];
  sfeat ← torch_cat (fst acc);
  Ok (sfeat, snd acc).

Definition set_full (self : t) (sfeat : list V) (sy : list Z) (smeta : Mt)
    (sfeat_env : list (list V)) (sy_env : list (list Z)) (smeta_env : list Mt) : t :=
  {| base := base self; n_shot_random := n_shot_random self;
     n_shot_full := n_shot_full self; n_shot_cluster := n_shot_cluster self;
     n_neighbors := n_neighbors self; full_datasets := full_datasets self;
     support_loaders := support_loaders self;
     full_feat := Some sfeat; full_y := Some sy; full_meta := Some smeta;
     full_feat_sep := Some sfeat_env; full_y_sep := Some sy_env;
     full_meta_sep := Some smeta_env;
     cluster_feat := cluster_feat self; cluster_y := cluster_y self;
     random_iter := random_iter self; knn := knn self; hnsw := hnsw self |}.
Definition set_cluster (self : t) (cf : list V) (cy : list Z) : t :=
  {| base := base self; n_shot_random := n_shot_random self;
     n_shot_full := n_shot_full self; n_shot_cluster := n_shot_cluster self;
     n_neighbors := n_neighbors self; full_datasets := full_datasets self;
     support_loaders := support_loaders self;
     full_feat := full_feat self; full_y := full_y self; full_meta := full_meta self;
     full_feat_sep := full_feat_sep self; full_y_sep := full_y_sep self;
     full_meta_sep := full_meta_sep self;
     cluster_feat := Some cf; cluster_y := Some cy;
     random_iter := random_iter self; knn := knn self; hnsw := hnsw self |}.
Definition set_random_iter (self : t) (r : R) : t :=
  {| base := base self; n_shot_random := n_shot_random self;
     n_shot_full := n_shot_full self; n_shot_cluster := n_shot_cluster self;
     n_neighbors := n_neighbors self; full_datasets := full_datasets self;
     support_loaders := support_loaders self;
     full_feat := full_feat self; full_y := full_y self; full_meta := full_meta self;
     full_feat_sep := full_feat_sep self; full_y_sep := full_y_sep self;
     full_meta_sep := full_meta_sep self;
     cluster_feat := cluster_feat self; cluster_y := cluster_y self;
     random_iter := Some r; knn := knn self; hnsw := hnsw self |}.
Definition set_knn (self : t) (k : K) : t :=
  {| base := base self; n_shot_random := n_shot_random self;
     n_shot_full := n_shot_full self; n_shot_cluster := n_shot_cluster self;
     n_neighbors := n_neighbors self; full_datasets := full_datasets self;
     support_loaders := support_loaders self;
     full_feat := full_feat self; full_y := full_y self; full_meta := full_meta self;
     full_feat_sep := full_feat_sep self; full_y_sep := full_y_sep self;
     full_meta_sep := full_meta_sep self;
     cluster_feat := cluster_feat self; cluster_y := cluster_y self;
     random_iter := random_iter self; knn := Some k; hnsw := hnsw self |}.
Definition set_hnsw (self : t) (h : H) : t :=
  {| base := base self; n_shot_random := n_shot_random self;
     n_shot_full := n_shot_full self; n_shot_cluster := n_shot_cluster self;
     n_neighbors := n_neighbors self; full_datasets := full_datasets self;
     support_loaders := support_loaders self;
     full_feat := full_feat self; full_y := full_y self; full_meta := full_meta self;
     full_feat_sep := full_feat_sep self; full_y_sep := full_y_sep self;
     full_meta_sep := full_meta_sep self;
     cluster_feat := cluster_feat self; cluster_y := cluster_y self;
     random_iter := random_iter self; knn := knn self; hnsw := Some h |}.

(** Lines 130-150.  An exception leaves the attributes assigned before it
    on the object. *)
Definition build_infer_iters (self : t) (sfeat : list V) (sy : list Z) (smeta : Mt)
    (sfeat_env : list (list V)) (sy_env : list (list Z)) (smeta_env : list Mt)
  : result unit * t :=
  let self := set_full self sfeat sy smeta sfeat_env sy_env smeta_env in
  match _compute_clusters self with
  | Raise e => (Raise e, self)
  | Ok (cf, cy) =>
      let self := set_cluster self cf cy in
      match feature_iter sfeat sy smeta (n_shot_random self) with
      | Raise e => (Raise e, self)
      | Ok r =>
          let self := set_random_iter self r in
          match KNN sfeat sy (n_neighbors self) with
          | Raise e => (Raise e, self)
          | Ok k =>
              let self := set_knn self k in
              match HNSW sfeat sy (n_neighbors self) with
              | Raise e => (Raise e, self)
              | Ok h => (Ok tt, set_hnsw self h)
              end
          end
      end
  end.

(** The mode names [get_support] knows. *)
Definition modes : list string :=
  ["random"; "full"; "cluster"; "ensemble"; "knn"; "hnsw"].

(** None of the attributes that [get_support] reads has been assigned. *)
Definition fresh (self : t) : Prop :=
  full_feat self = None ∧ full_y self = None ∧
  full_feat_sep self = None ∧ full_y_sep self = None ∧
  cluster_feat self = None ∧ cluster_y self = None ∧
  random_iter self = None ∧ knn self = None ∧ hnsw self = None.

(** The body of the [try] of lines 155-169: one handler per mode. *)
Definition handler (self : t) (mode : string) (x : option Qy)
  : result Support * t :=
  if String.eqb mode "random" then
    match getattr cls "random_iter" (random_iter self) with
    | Raise e => (Raise e, self)
    | Ok it =>
        let '(r, it') := feature_next it in
        (b ← r; Ok (Tensors (fst (fst b)) (snd (fst b))), set_random_iter self it')
    end
  else if String.eqb mode "full" then
    (sfeat ← getattr cls "full_feat" (full_feat self);
     sy ← getattr cls "full_y" (full_y self);
     Ok (Tensors sfeat sy), self)
  else if String.eqb mode "cluster" then
    (sfeat ← getattr cls "cluster_feat" (cluster_feat self);
     sy ← getattr cls "cluster_y" (cluster_y self);
     Ok (Tensors sfeat sy), self)
  else if String.eqb mode "ensemble" then
    (sfeat ← getattr cls "full_feat_sep" (full_feat_sep self);
     sy ← getattr cls "full_y_sep" (full_y_sep self);
     Ok (PerEnv sfeat sy), self)
  else if String.eqb mode "knn" then
    (k ← getattr cls "knn" (knn self);
     r ← knn_call k x;
     Ok (Tensors (fst r) (snd r)), self)
  else if String.eqb mode "hnsw" then
    (h ← getattr cls "hnsw" (hnsw self);
     r ← hnsw_call h x;
     Ok (Tensors (fst r) (snd r)), self)
  else
    (Raise NotImplementedError, self).

(** Lines 152-171: [except AttributeError] replaces what it catches. *)
Definition get_support (self : t) (mode : string) (x : option Qy)
  : result Support * t :=
  match handler self mode x with
  | (Raise e, self') =>
      if isinstance e "AttributeError"
      then (Raise (AttributeError "Did you run precompute()?"), self')
      else (Raise e, self')
  | ok => ok
  end.

End WithCollaborators.
Arguments t V Mt R K H F : clear implicits.
End SupportSetEval.

(** ** Round trip through the two partitioning paths *)

Module RoundTrip.
Import SupportSet.

(** Build the support set from a dataset and an environment array (which
    separates it, line 24), then hand the environment views to
    [_combine_env_datasets] and read the label array it attaches. *)
Definition separate_then_combine (d : UserDataset) (n_classes : nat)
    (env : list Z) : result (list Z) :=
  self ← __init__ (OneDataset d) n_classes (Some env);
  envs ← getattr cls "env_datasets" (env_datasets self);
  c ← fst (_combine_env_datasets self envs);
  Ok (concat_targets c).

(** The labels of the items whose environment id is [a], in item order. *)
Fixpoint labels_of_env (env y : list Z) (a : Z) : list Z :=
  match env, y with
  | e :: env', l :: y' =>
      if e =? a then l :: labels_of_env env' y' a else labels_of_env env' y' a
  | _, _ => []
  end.

(** The view of environment [a] as lines 53-55 build it. *)
Definition view_of (combined : DatasetMetadata) (env y : list Z) (a : Z) : Subset :=
  {| subset_dataset := combined; subset_indices := Np.nonzero_eq env a;
     subset_targets := labels_of_env env y a |}.

(** One environment view: the wrapped dataset, the positions of the id in
    ascending order, and the labels read at them. *)
Definition is_view (y env : list Z) (combined : DatasetMetadata) (a : Z)
    (v : Subset) : Prop :=
  subset_dataset v = combined ∧
  subset_indices v = Np.nonzero_eq env a ∧
  Np.take y (Np.nonzero_eq env a) = Ok (subset_targets v).

(** The labels grouped by ascending environment id. *)
Definition grouped_by_env (env y : list Z) : list Z :=
  concat (labels_of_env env y <$> Np.unique env).

(** The environment ids never decrease along the dataset. *)
Fixpoint ascending (env : list Z) : Prop :=
  match env with
  | [] => True
  | e :: env' => (∀ e', e' ∈ env' → e ≤ e') ∧ ascending env'
  end.

End RoundTrip.

(** ** Objects a training provider can reach *)

Module Reach.
Section WithSampler.
Context {S X M : Type} `{!BalancedSampler S X M}.

(** The instances that exist at run time: what the constructor returns, and
    what [get_support] leaves behind, whether it returned or raised. *)
Inductive reachable : SupportSetTrain.t S → Prop :=
| reach_init support_set n_classes train_type n_shot n_way env_array self :
    SupportSetTrain.__init__ support_set n_classes train_type n_shot n_way env_array
      = Ok self →
    reachable self
| reach_get_support self y env_index rnd :
    reachable self →
    reachable (snd (SupportSetTrain.get_support self y env_index rnd)).

End WithSampler.
End Reach.

(** ** Concrete collaborators for running the model *)

Module Toy.

(** A sampler that records every [next] call it receives.  Without a label
    argument it yields [n_shot] items of every class of its dataset; with
    one it yields the requested labels. *)
Record Recorder := { pool : list Z; calls : list (option (list Z)) }.

Definition source_targets (src : LoaderSource) : list Z :=
  match src with
  | FromCombined (CombinedMeta d) => ud_targets (dm_dataset d)
  | FromCombined (CombinedConcat c) => concat_targets c
  | FromSubset s => subset_targets s
  end.

#[global] Instance recorder_sampler : BalancedSampler Recorder nat unit := {|
  InfiniteUniformClassLoader src n_shot _ :=
    Ok {| pool := concat ((fun c => replicate n_shot c) <$> Np.unique (source_targets src));
          calls := [] |};
  iter s := Ok s;
  next s arg :=
    (Ok (length (calls s), match arg with Some y => y | None => pool s end, tt),
     {| pool := pool s; calls := calls s ++ [arg] |})
|}.

(** Collaborators over one-dimensional features.  The clustering takes the
    first [n] rows as centroids and refuses fewer rows than clusters; the
    indexes return the first [n_neighbors] rows and need a query. *)
Record Index := { ix_feat : list Z; ix_y : list Z; ix_k : nat }.

Definition index_call (ix : Index) (x : option Z) : result (list Z * list Z) :=
  match x with
  | None => Raise (AttributeError "'NoneType' object has no attribute 'shape'")
  | Some _ => Ok (firstn (ix_k ix) (ix_feat ix), firstn (ix_k ix) (ix_y ix))
  end.

#[global] Instance toy_eval : EvalCollaborators Z unit Z nat Index Index Subset := {|
  feature_iter _ _ _ _ := Ok 0%nat;
  feature_next r := (Raise (RuntimeError "not sampled here"), Datatypes.S r);
  KNN f y k := Ok {| ix_feat := f; ix_y := y; ix_k := k |};
  knn_call := index_call;
  HNSW f y k := Ok {| ix_feat := f; ix_y := y; ix_k := k |};
  hnsw_call := index_call;
  FullDataset env _ := Ok env;
  KMeans_fit n rows :=
    if (length rows <? n)%nat
    then Raise (ValueError "n_samples should be >= n_clusters")
    else Ok (firstn n rows)
|}.

(** Three items in environments 1, 0, 1. *)
Definition ds3 : UserDataset := {| ud_len := 3; ud_targets := [0; 1; 2] |}.
Definition env3 : list Z := [1; 0; 1].

(** Four items of classes 0 and 1, in environments 1 and 2. *)
Definition ds4 : UserDataset := {| ud_len := 4; ud_targets := [0; 1; 0; 1] |}.
Definition env4 : list Z := [1; 1; 2; 2].

(** Six items of classes 0, 1 and 2, and their feature rows. *)
Definition y6 : list Z := [0; 1; 0; 1; 2; 2].
Definition ds6 : UserDataset := {| ud_len := 6; ud_targets := y6 |}.
Definition feat6 : list Z := [100; 200; 101; 201; 300; 301].

(** A call on which the audit is due, and one on which it is not. *)
Definition audited : SupportSetTrain.Draws := {| SupportSetTrain.choice := 0; SupportSetTrain.u := 1 # 1000 |}.
Definition unaudited : SupportSetTrain.Draws := {| SupportSetTrain.choice := 0; SupportSetTrain.u := 1 # 2 |}.

End Toy.

(** Closed statements about concrete inputs are settled by running the
    model. *)
Ltac run := vm_compute; reflexivity.

(** * Properties *)

(** ** The array operations *)

Module NpFacts.
Import Np.

Lemma elem_of_insert_uniq x l y : y ∈ insert_uniq x l ↔ y = x ∨ y ∈ l.
Proof.
  induction l as [|a l IH]; simpl.
  - rewrite list_elem_of_singleton, elem_of_nil. tauto.
  - destruct (Z.ltb_spec x a); [by rewrite elem_of_cons|].
    destruct (Z.eqb_spec x a) as [->|].
    + rewrite elem_of_cons. tauto.
    + rewrite !elem_of_cons, IH. tauto.
Qed.

Lemma elem_of_unique a c : c ∈ unique a ↔ c ∈ a.
Proof.
  induction a as [|x a IH]; simpl; [done|].
  rewrite elem_of_insert_uniq, elem_of_cons, IH. tauto.
Qed.

Lemma insert_uniq_sorted x l :
  StronglySorted Z.lt l → StronglySorted Z.lt (insert_uniq x l).
Proof.
  induction 1 as [|a l Hs IH Ha]; simpl.
  - repeat constructor.
  - destruct (Z.ltb_spec x a).
    + constructor; [by constructor|].
      constructor; [done|]. eapply Forall_impl; [exact Ha|]. simpl. lia.
    + destruct (Z.eqb_spec x a); [by constructor|].
      constructor; [done|]. apply Forall_forall. intros y Hy.
      apply elem_of_insert_uniq in Hy as [->|Hy]; [lia|].
      rewrite Forall_forall in Ha. by apply Ha.
Qed.

Lemma unique_sorted a : StronglySorted Z.lt (unique a).
Proof. induction a; simpl; [constructor|by apply insert_uniq_sorted]. Qed.

Lemma sorted_lt_NoDup (l : list Z) : StronglySorted Z.lt l → NoDup l.
Proof.
  induction 1 as [|a l Hs IH Ha]; constructor; [|done].
  intros Hin. rewrite Forall_forall in Ha. specialize (Ha _ Hin). lia.
Qed.

Lemma unique_NoDup a : NoDup (unique a).
Proof. apply sorted_lt_NoDup, unique_sorted. Qed.

(** Two strictly ascending lists with the same elements are equal. *)
Lemma sorted_lt_ext (l k : list Z) :
  StronglySorted Z.lt l → StronglySorted Z.lt k → (∀ x, x ∈ l ↔ x ∈ k) → l = k.
Proof.
  intros Hl Hk Hlk.
  apply (StronglySorted_unique_strong Z.lt); [intros; lia|done..|].
  apply NoDup_Permutation; auto using sorted_lt_NoDup.
Qed.

Lemma arange_sorted n : StronglySorted Z.lt (arange n).
Proof.
  unfold arange. generalize 0%nat. induction n as [|n IH]; intros i; simpl.
  - constructor.
  - constructor; [apply IH|].
    apply Forall_forall. intros x Hx.
    apply list_elem_of_fmap in Hx as (j & -> & Hj).
    apply elem_of_seq in Hj. lia.
Qed.

Lemma elem_of_arange n c : c ∈ arange n ↔ 0 ≤ c < Z.of_nat n.
Proof.
  unfold arange. rewrite list_elem_of_fmap. split.
  - intros (j & -> & Hj). apply elem_of_seq in Hj. lia.
  - intros Hc. exists (Z.to_nat c). split; [lia|]. apply elem_of_seq. lia.
Qed.

(** When the labels are exactly the classes [0..n-1], their sorted distinct
    values are [arange n]. *)
Lemma unique_all_classes (labels : list Z) (n : nat) :
  (∀ c, c ∈ labels ↔ 0 ≤ c < Z.of_nat n) → unique labels = arange n.
Proof.
  intros Hc. apply sorted_lt_ext; auto using unique_sorted, arange_sorted.
  intros x. by rewrite elem_of_unique, elem_of_arange.
Qed.

(** On a strictly ascending list whose elements are not below [e],
    inserting [e] puts it in front. *)
Lemma insert_uniq_front e l :
  StronglySorted Z.lt l → (∀ x, x ∈ l → e ≤ x) →
  ∃ l', insert_uniq e l = e :: l' ∧ (e ∉ l') ∧ (l = l' ∨ l = e :: l').
Proof.
  intros Hs Hle. destruct l as [|a l]; simpl.
  - exists []. split; [done|]. split; [apply not_elem_of_nil|by left].
  - apply StronglySorted_inv in Hs as [Hs Ha]. rewrite Forall_forall in Ha.
    destruct (Z.ltb_spec e a).
    + exists (a :: l). split; [done|]. split; [|by left].
      intros Hin. apply elem_of_cons in Hin as [->|Hin]; [lia|].
      specialize (Ha _ Hin). lia.
    + assert (e ≤ a) by (apply Hle; left).
      assert (e = a) as -> by lia.
      rewrite Z.eqb_refl. exists l. split; [done|]. split; [|by right].
      intros Hin. specialize (Ha _ Hin). lia.
Qed.

Lemma mapR_ok {A B} (f : A → result B) (g : A → B) l :
  (∀ a, a ∈ l → f a = Ok (g a)) → mapR f l = Ok (g <$> l).
Proof.
  induction l as [|a l IH]; intros Hf; simpl; [done|].
  rewrite Hf by left. simpl. rewrite IH by (intros; apply Hf; by right). done.
Qed.

Lemma mapR_length {A B} (f : A → result B) l r :
  mapR f l = Ok r → length r = length l.
Proof.
  revert r. induction l as [|a l IH]; intros r; simpl.
  - by intros [= <-].
  - destruct (f a); [|done]. simpl. destruct (mapR f l); [|done]. simpl.
    intros [= <-]. simpl. f_equal. by apply IH.
Qed.

End NpFacts.

(** ** Partitioning by environment *)

Module PartitionFacts.
Import Np NpFacts SupportSet RoundTrip.

Lemma take_nonzero_from (pre env y : list Z) a :
  (length env ≤ length y)%nat →
  take (pre ++ y) (nonzero_eq_from (length pre) env a) = Ok (labels_of_env env y a).
Proof.
  revert pre y. induction env as [|e env IH]; intros pre y Hlen; [done|].
  destruct y as [|l y]; simpl in Hlen; [lia|].
  assert (take (pre ++ l :: y) (nonzero_eq_from (Datatypes.S (length pre)) env a)
          = Ok (labels_of_env env y a)) as Hrest.
  { specialize (IH (pre ++ [l]) y). rewrite <- app_assoc, length_app in IH.
    simpl in IH. rewrite Nat.add_1_r in IH. apply IH. lia. }
  simpl. destruct (e =? a); [|done].
  unfold take in *. simpl. rewrite list_lookup_middle by done. simpl.
  by rewrite Hrest.
Qed.

Lemma take_nonzero (env y : list Z) a :
  (length env ≤ length y)%nat →
  take y (nonzero_eq env a) = Ok (labels_of_env env y a).
Proof. apply (take_nonzero_from []). Qed.

Lemma length_nonzero_from i (env y : list Z) a :
  (length env ≤ length y)%nat →
  length (nonzero_eq_from i env a) = length (labels_of_env env y a).
Proof.
  revert i y. induction env as [|e env IH]; intros i y Hlen; [done|].
  destruct y as [|l y]; simpl in Hlen; [lia|].
  simpl. destruct (e =? a); simpl; rewrite (IH _ y) by lia; done.
Qed.

Lemma len_view_of combined env y a :
  (length env ≤ length y)%nat →
  len_subset (view_of combined env y a) = length (labels_of_env env y a).
Proof. intros. by apply length_nonzero_from. Qed.

(** With at least as many labels as environment ids the loop never raises:
    it appends one view per distinct id. *)
Lemma separate_loop_ok y env combined i attrs m acc :
  (length env ≤ length y)%nat →
  ∃ m', separate_loop y env combined i attrs m acc
        = (Ok (acc ++ (view_of combined env y <$> attrs)), m').
Proof.
  intros Hlen. revert i m acc.
  induction attrs as [|a attrs IH]; intros i m acc; simpl.
  - exists m. by rewrite app_nil_r.
  - rewrite take_nonzero by done.
    destruct (IH (Datatypes.S i) (<[a:=i]> m) (acc ++ [view_of combined env y a]))
      as [m' Hm'].
    exists m'. unfold view_of in *. rewrite Hm'. by rewrite <- app_assoc.
Qed.

Lemma separate_ok (self : t) combined :
  (length (env_array self) ≤ length (y_array self))%nat →
  ∃ m, _separate_env_datasets self combined
       = (Ok (view_of combined (env_array self) (y_array self)
                <$> unique (env_array self)),
          set_env_map self m).
Proof.
  intros Hlen. unfold _separate_env_datasets.
  destruct (separate_loop_ok (y_array self) (env_array self) combined 0
              (unique (env_array self)) ∅ [] Hlen) as [m Hm].
  exists m. by rewrite Hm.
Qed.

Lemma labels_of_env_absent env y a : a ∉ env → labels_of_env env y a = [].
Proof.
  revert y. induction env as [|e env IH]; intros y Ha; [done|].
  destruct y as [|l y]; [done|]. simpl.
  apply not_elem_of_cons in Ha as [Hne Ha].
  destruct (Z.eqb_spec e a); [congruence|]. by apply IH.
Qed.

(** Moving one item to the front of the bucket of its own environment. *)
Lemma concat_bucket_cons (L : Z → list Z) e l us :
  NoDup us → e ∈ us →
  concat ((λ a, if e =? a then l :: L a else L a) <$> us) ≡ₚ l :: concat (L <$> us).
Proof.
  induction us as [|a us IH]; intros Hnd He; [by apply elem_of_nil in He|].
  apply NoDup_cons in Hnd as [Ha Hnd]. rewrite !fmap_cons. cbn [concat].
  destruct (Z.eqb_spec e a) as [->|Hne].
  - assert (((λ a0, if a =? a0 then l :: L a0 else L a0) <$> us) = (L <$> us)) as ->;
      [|done].
    apply list_fmap_ext. intros i x Hx.
    apply list_elem_of_lookup_2 in Hx.
    destruct (Z.eqb_spec a x) as [Hax|]; [|done].
    by rewrite Hax in Ha.
  - apply elem_of_cons in He as [?|He]; [done|].
    rewrite IH by done. by rewrite Permutation_middle.
Qed.

(** The buckets of any duplicate-free list of ids that covers the
    environment array hold every label once. *)
Lemma buckets_perm env y us :
  length env = length y → NoDup us → (∀ e, e ∈ env → e ∈ us) →
  concat (labels_of_env env y <$> us) ≡ₚ y.
Proof.
  revert y. induction env as [|e env IH]; intros y Hlen Hnd Hcov.
  - destruct y; [|done]. clear. induction us; simpl; auto.
  - destruct y as [|l y]; [done|]. simpl in Hlen.
    transitivity (l :: concat (labels_of_env env y <$> us)).
    + rewrite <- (concat_bucket_cons (labels_of_env env y) e l us);
        [done|done|apply Hcov; left].
    + f_equiv. apply IH; [lia|done|]. intros. apply Hcov. by right.
Qed.

Lemma grouped_perm env y : length env = length y → grouped_by_env env y ≡ₚ y.
Proof.
  intros. apply buckets_perm; [done|apply unique_NoDup|].
  intros. by apply elem_of_unique.
Qed.

(** On an ascending environment array grouping changes nothing. *)
Lemma grouped_ascending env y :
  ascending env → length env = length y → grouped_by_env env y = y.
Proof.
  unfold grouped_by_env. revert y.
  induction env as [|e env IH]; intros y Hasc Hlen.
  - by destruct y.
  - destruct y as [|l y]; [done|]. destruct Hasc as [Hle Hasc].
    simpl in Hlen. specialize (IH y Hasc ltac:(lia)).
    destruct (insert_uniq_front e (unique env)) as (us & Hins & Hnotin & Hus).
    { apply unique_sorted. }
    { intros x Hx. apply Hle. by apply elem_of_unique. }
    change (unique (e :: env)) with (insert_uniq e (unique env)).
    rewrite Hins, fmap_cons. cbn [concat].
    assert ((labels_of_env (e :: env) (l :: y) <$> us) = (labels_of_env env y <$> us))
      as ->.
    { apply list_fmap_ext. intros i x Hx. simpl.
      apply list_elem_of_lookup_2 in Hx.
      destruct (Z.eqb_spec e x) as [Hex|]; [|done].
      by rewrite Hex in Hnotin. }
    cbn [labels_of_env]. rewrite Z.eqb_refl. cbn [app]. f_equal.
    destruct Hus as [Hus|Hus]; rewrite Hus in IH.
    + rewrite labels_of_env_absent; [done|].
      rewrite <- elem_of_unique, Hus. done.
    + done.
Qed.

Lemma sum_len_views combined env y us :
  (length env ≤ length y)%nat →
  sum_list (len_subset <$> (view_of combined env y <$> us))
  = length (concat (labels_of_env env y <$> us)).
Proof.
  intros Hlen. induction us as [|a us IH]; [done|].
  rewrite !fmap_cons. cbn [concat sum_list_with]. rewrite length_app, <- IH.
  unfold id. f_equal. by apply len_view_of.
Qed.

Lemma targets_views combined env y (us : list Z) :
  subset_targets <$> (view_of combined env y <$> us) = labels_of_env env y <$> us.
Proof. rewrite <- list_fmap_compose. done. Qed.

End PartitionFacts.

(** ** The constructor of the base class *)

Module InitFacts.
Import Np NpFacts SupportSet RoundTrip PartitionFacts.

(** The separating branches (lines 20-24 and 35-39) on an environment array
    with one id per label: the object they build. *)
Lemma init_separates d n env :
  length env = length (ud_targets d) →
  let wrapped := {| dm_dataset := d; dm_metadata := env |} in
  let self0 :=
    {| y_array := ud_targets d; n_classes := n; env_array := env;
       combined_dataset := Some (CombinedMeta wrapped);
       env_datasets := None; env_map := None |} in
  ∃ m, (let '(r, self) := _separate_env_datasets self0 wrapped in
        envs ← r; Ok (set_env_datasets self envs))
       = Ok {| y_array := ud_targets d; n_classes := n; env_array := env;
               combined_dataset := Some (CombinedMeta wrapped);
               env_datasets :=
                 Some (view_of wrapped env (ud_targets d) <$> unique env);
               env_map := Some m |}.
Proof.
  intros Hlen wrapped self0.
  destruct (separate_ok self0 wrapped) as [m Hm]; [simpl; lia|].
  exists m. rewrite Hm. done.
Qed.

Lemma init_with_env d n env :
  length env = length (ud_targets d) →
  ∃ m, __init__ (OneDataset d) n (Some env)
       = Ok {| y_array := ud_targets d; n_classes := n; env_array := env;
               combined_dataset :=
                 Some (CombinedMeta {| dm_dataset := d; dm_metadata := env |});
               env_datasets :=
                 Some (view_of {| dm_dataset := d; dm_metadata := env |} env
                         (ud_targets d) <$> unique env);
               env_map := Some m |}.
Proof. intros Hlen. apply (init_separates d n env Hlen). Qed.

Lemma init_single d n :
  ud_len d = length (ud_targets d) → ud_len d ≠ 0%nat →
  let env := replicate (ud_len d) 0 in
  ∃ m, __init__ (OneDataset d) n None
       = Ok {| y_array := ud_targets d; n_classes := n; env_array := env;
               combined_dataset :=
                 Some (CombinedMeta {| dm_dataset := d; dm_metadata := env |});
               env_datasets :=
                 Some (view_of {| dm_dataset := d; dm_metadata := env |} env
                         (ud_targets d) <$> unique env);
               env_map := Some m |}.
Proof.
  intros Hlen Hne env. unfold __init__, all_items_are_datasets.
  rewrite bool_decide_eq_false_2 by done.
  apply (init_separates d n env). unfold env. by rewrite length_replicate.
Qed.

(** A single dataset, with or without an environment array that has one id
    per item, is constructed, and the combined view is as long as the
    environment views together. *)
Lemma init_lengths_agree d n (env_array : option (list Z)) :
  ud_len d = length (ud_targets d) →
  match env_array with
  | Some env => length env = ud_len d
  | None => ud_len d ≠ 0%nat
  end →
  ∃ self c envs,
    __init__ (OneDataset d) n env_array = Ok self ∧
    combined_dataset self = Some c ∧ env_datasets self = Some envs ∧
    len_combined c = sum_list (len_subset <$> envs).
Proof.
  intros Hlen Henv. destruct env_array as [env|].
  - destruct (init_with_env d n env) as [m Hm]; [lia|].
    eexists _, _, _. split; [exact Hm|]. split; [done|]. split; [done|].
    simpl. rewrite sum_len_views by lia. unfold len_meta. simpl.
    fold (grouped_by_env env (ud_targets d)).
    rewrite grouped_perm by lia. done.
  - destruct (init_single d n Hlen Henv) as [m Hm].
    eexists _, _, _. split; [exact Hm|]. split; [done|]. split; [done|].
    simpl. rewrite sum_len_views by (rewrite length_replicate; lia).
    unfold len_meta. simpl.
    fold (grouped_by_env (replicate (ud_len d) 0) (ud_targets d)).
    rewrite grouped_perm by (rewrite length_replicate; lia). done.
Qed.

(** Recombination succeeds on a non-empty list of views whose lengths add
    up to the number of labels stored on the object's own views. *)
Lemma combine_ok (self : t) (envs own : list Subset) :
  envs ≠ [] → env_datasets self = Some own → own ≠ [] →
  sum_list (len_subset <$> envs) = length (concat (subset_targets <$> own)) →
  _combine_env_datasets self envs
  = (Ok {| concat_datasets := envs;
           concat_targets := concat (subset_targets <$> own) |},
     set_env_map self (identity_map (length envs))).
Proof.
  intros Hne Hown Hown_ne Hsum. unfold _combine_env_datasets. f_equal.
  destruct envs as [|e envs]; [done|]. cbn [new_ConcatDataset mbind result_bind].
  cbn [set_env_map env_datasets]. rewrite Hown. cbn [getattr].
  destruct own as [|o own]; [done|].
  cbn [mbind result_bind]. rewrite (fmap_cons subset_targets) in *.
  cbn [concatenate mbind result_bind]. unfold len_concat.
  cbn [concat_datasets concat_targets].
  rewrite bool_decide_eq_true_2 by exact Hsum. done.
Qed.

(** Whatever the list holds, and whatever the other arguments are, a list
    argument fails at line 15. *)
Lemma init_list_raises ds n env_array :
  __init__ (DatasetList ds) n env_array
  = Raise (AttributeError "'list' object has no attribute 'targets'").
Proof. done. Qed.

(** A dataset without items takes the list branch and fails in
    [ConcatDataset]. *)
Lemma init_empty_raises targets n :
  __init__ (OneDataset {| ud_len := 0; ud_targets := targets |}) n None
  = Raise AssertionError.
Proof. done. Qed.

End InitFacts.

Import Np NpFacts RoundTrip PartitionFacts InitFacts.

(** C3, as stated, fails: with labels [0, 1, 2] in environments
    [1, 0, 1], separating and recombining yields [1, 0, 2], not the
    original label array. *)
Lemma roundtrip_reorders_labels :
  separate_then_combine Toy.ds3 3 Toy.env3 = Ok [1; 0; 2] ∧
  separate_then_combine Toy.ds3 3 Toy.env3 ≠ Ok (ud_targets Toy.ds3).
Proof. split; [by vm_compute|]. vm_compute. discriminate. Qed.

(** C3, amended: for a dataset with a non-empty environment array holding
    one id per label, separating and recombining succeeds and yields the
    labels grouped by ascending environment id, each group in item order;
    this is a permutation of the original label array, and it is the
    original array itself when the environment ids never decrease. *)
Theorem roundtrip_groups_by_env d n env :
  length env = length (ud_targets d) → env ≠ [] →
  separate_then_combine d n env = Ok (grouped_by_env env (ud_targets d)) ∧
  grouped_by_env env (ud_targets d) ≡ₚ ud_targets d ∧
  (ascending env → grouped_by_env env (ud_targets d) = ud_targets d).
Proof.
  intros Hlen Hne. split; [|split].
  - unfold separate_then_combine.
    destruct (init_with_env d n env Hlen) as [m ->].
    set (wrapped := {| dm_dataset := d; dm_metadata := env |}).
    set (envs := view_of wrapped env (ud_targets d) <$> unique env).
    assert (envs ≠ []) as Hu.
    { unfold envs. destruct env as [|e env]; [done|]. intros Hnil.
      apply fmap_nil_inv in Hnil.
      assert (e ∈ unique (e :: env)) as Hin by (apply elem_of_unique; left).
      rewrite Hnil in Hin. by apply elem_of_nil in Hin. }
    cbn [mbind result_bind getattr SupportSet.env_datasets].
    rewrite (combine_ok _ envs envs); [|exact Hu|reflexivity|exact Hu|].
    + cbn [fst mbind result_bind concat_targets]. unfold envs.
      by rewrite targets_views.
    + unfold envs. rewrite targets_views. apply sum_len_views. lia.
  - by apply grouped_perm.
  - intros. by apply grouped_ascending.
Qed.

Lemma roundtrip_groups_by_env_witness :
  ascending Toy.env4 ∧
  separate_then_combine Toy.ds4 2 Toy.env4
    = Ok (grouped_by_env Toy.env4 (ud_targets Toy.ds4)) ∧
  grouped_by_env Toy.env4 (ud_targets Toy.ds4) ≡ₚ ud_targets Toy.ds4 ∧
  (ascending Toy.env4 →
   grouped_by_env Toy.env4 (ud_targets Toy.ds4) = ud_targets Toy.ds4).
Proof.
  split.
  - repeat split; intros e' He';
      repeat (apply elem_of_cons in He' as [->|He']; [lia|]);
      by apply elem_of_nil in He'.
  - apply (roundtrip_groups_by_env Toy.ds4 2 Toy.env4); [reflexivity|discriminate].
Defined.

(** C8 at the failing input: a list of two datasets, the shape the comment
    of line 25 announces, is not constructed at all: line 15 raises.  No
    list of datasets, with any other arguments, yields a support set. *)
Theorem init_dataset_list_raises :
  SupportSet.__init__ (DatasetList [Toy.ds3; Toy.ds4]) 3 None
  = Raise (AttributeError "'list' object has no attribute 'targets'") ∧
  (∀ ds n env_array self, SupportSet.__init__ (DatasetList ds) n env_array ≠ Ok self).
Proof.
  split; [reflexivity|].
  intros ds n env_array self. by rewrite init_list_raises.
Qed.

(** ** The training provider *)

Section TrainFacts.
Context {S X M : Type} `{!BalancedSampler S X M}.
Import SupportSetTrain.
Implicit Types (self : SupportSetTrain.t S) (y sy env_index : list Z) (rnd : Draws).

(** [sample] replaces the sampler state and nothing else. *)
Lemma sample_frame self y env_index rnd :
  ∃ it, snd (sample self y env_index rnd) = set_train_iter self it.
Proof.
  exists (train_iter (snd (sample self y env_index rnd))).
  unfold sample.
  repeat (case_match; simpl; try done); by destruct self.
Qed.

Lemma get_support_state self y env_index rnd :
  snd (get_support self y env_index rnd) = snd (sample self y env_index rnd).
Proof. unfold get_support. by destruct (sample self y env_index rnd). Qed.

Lemma get_support_frame self y env_index rnd :
  let self' := snd (get_support self y env_index rnd) in
  num_per_class self' = num_per_class self ∧ base self' = base self ∧
  train_type self' = train_type self.
Proof.
  simpl. rewrite get_support_state.
  destruct (sample_frame self y env_index rnd) as [it ->]. done.
Qed.

(** No reachable instance has the attribute [num_per_class]. *)
Lemma reachable_num_per_class self :
  Reach.reachable self → num_per_class self = None.
Proof.
  induction 1 as [? ? ? ? ? ? self Hinit|self y env_index rnd _ IH].
  - unfold __init__ in Hinit.
    destruct (SupportSet.__init__ _ _ _); [|done]. simpl in Hinit.
    destruct (_build_iter _ _ _ _); [|done]. simpl in Hinit.
    by injection Hinit as <-.
  - by destruct (get_support_frame self y env_index rnd) as (-> & _).
Qed.

(** The two assertions of [_verify_sy] in terms of its inputs. *)
Lemma verify_sy_unfold self sy :
  _verify_sy self sy =
  if Np.equal (Np.unique sy) (Np.arange (SupportSet.n_classes (base self)))
  then k ← getattr cls "num_per_class" (num_per_class self);
       assert (Np.equal (Np.unique_counts sy).2 ((fun _ => 1 * k) <$> Np.unique sy))
  else Raise AssertionError.
Proof. unfold _verify_sy. simpl. by case_match. Qed.

Lemma verify_sy_never_ok self sy :
  num_per_class self = None → _verify_sy self sy ≠ Ok tt.
Proof.
  intros Hnone. rewrite verify_sy_unfold, Hnone. by case_match.
Qed.

(** On a reachable instance a call on which the audit is due never returns
    a batch. *)
Lemma audited_call_raises self y env_index rnd :
  Reach.reachable self → audit_due rnd = true →
  is_ok (fst (get_support self y env_index rnd)) = false.
Proof.
  intros Hreach Hdue. unfold get_support.
  destruct (sample self y env_index rnd) as [r self'] eqn:Hs. simpl.
  destruct r as [batch|]; [|done]. simpl. rewrite Hdue.
  assert (num_per_class self' = None) as Hnone.
  { replace self' with (snd (sample self y env_index rnd)) by by rewrite Hs.
    rewrite <- get_support_state.
    destruct (get_support_frame self y env_index rnd) as (-> & _).
    by apply reachable_num_per_class. }
  pose proof (verify_sy_never_ok self' batch.1.2 Hnone).
  destruct (_verify_sy self' batch.1.2) as [[]|]; done.
Qed.

(** C10: on every instance the class can produce, when [_verify_sy] runs
    and its first assertion passes (the sorted distinct labels are
    [0..n_classes-1]), the call raises the AttributeError of the attribute
    [num_per_class], which nothing assigns; and for no label batch at all
    does [_verify_sy] complete. *)
Theorem verify_sy_raises_attribute_error self sy :
  Reach.reachable self →
  Np.unique sy = Np.arange (SupportSet.n_classes (base self)) →
  _verify_sy self sy = Raise missing_num_per_class ∧
  isinstance missing_num_per_class "AttributeError" = true ∧
  (∀ sy', _verify_sy self sy' ≠ Ok tt).
Proof.
  intros Hreach Hfirst. pose proof (reachable_num_per_class self Hreach) as Hnone.
  split; [|split; [done|]].
  - rewrite verify_sy_unfold, Hnone, Hfirst.
    unfold Np.equal. by rewrite bool_decide_eq_true_2.
  - intros sy'. by apply verify_sy_never_ok.
Qed.

(** C2, amended: under the [random] policy [get_support] does not look at
    [env_index]: two calls that differ only in it do the same and return the
    same.  The label batch [y] is not ignored: it is handed to the [next]
    of the one loader. *)
Theorem random_ignores_env_index self y env_index1 env_index2 rnd :
  train_type self = "random" →
  get_support self y env_index1 rnd = get_support self y env_index2 rnd ∧
  (∀ s, train_iter self = OneLoader s →
        sample self y env_index1 rnd
        = (fst (next s (Some y)), set_train_iter self (OneLoader (snd (next s (Some y)))))).
Proof.
  intros Hrandom.
  assert (∀ e, sample self y e rnd =
               match train_iter self with
               | OneLoader s =>
                   let '(r, s') := next s (Some y) in
                   (r, set_train_iter self (OneLoader s'))
               | IterList _ =>
                   (Raise (AttributeError "'list' object has no attribute 'next'"), self)
               end) as Hsample.
  { intros e. unfold sample. by rewrite Hrandom. }
  split.
  - unfold get_support. by rewrite !Hsample.
  - intros s Hs. rewrite Hsample, Hs. by destruct (next s (Some y)).
Qed.

(** [torch.equal(env_index, ones_like(env_index) * env_index[0])] holds
    exactly when every entry is the first one. *)
Lemma all_equal_first_replicate k e0 :
  all_equal_first (replicate (Datatypes.S k) e0) = Ok true.
Proof.
  unfold all_equal_first. cbn [replicate]. f_equal. unfold Np.equal.
  apply bool_decide_eq_true_2.
  change (e0 :: replicate k e0) with (replicate (Datatypes.S k) e0).
  generalize (Datatypes.S k). intros n. induction n as [|n IH]; [done|].
  cbn [replicate]. rewrite fmap_cons, <- IH. f_equal. lia.
Qed.

Lemma all_equal_first_mixed e0 rest e :
  e ∈ rest → e ≠ e0 → all_equal_first (e0 :: rest) = Ok false.
Proof.
  intros Hin Hne. unfold all_equal_first. f_equal. unfold Np.equal.
  apply bool_decide_eq_false_2. rewrite fmap_cons. intros [= _ Heq].
  apply list_elem_of_lookup in Hin as [i Hi].
  assert (((λ _ : Z, 1 * e0) <$> rest) !! i = Some (1 * e0)) as Hi'.
  { by rewrite list_lookup_fmap, Hi. }
  rewrite <- Heq, Hi in Hi'. injection Hi' as ->. lia.
Qed.

(** C5, amended: under the [match] policy a non-empty batch of environment
    ids that are not all the first one makes [get_support] fail with an
    AssertionError and leaves the samplers untouched; when the ids are all
    [e0] and the environment map sends [e0] to the dense index [i], the
    batch is drawn with [next()] from the [i]-th sampler, which is the only
    one that moves, and is what the call returns when the audit is not
    due. *)
Theorem match_draws_from_mapped_env self y rnd :
  train_type self = "match" →
  (∀ e0 rest e, e ∈ rest → e ≠ e0 →
     get_support self y (e0 :: rest) rnd = (Raise AssertionError, self)) ∧
  (∀ e0 k m i l it,
     SupportSet.env_map (base self) = Some m → m !! e0 = Some i →
     train_iter self = IterList l → l !! i = Some it →
     sample self y (replicate (Datatypes.S k) e0) rnd
     = (fst (next it None),
        set_train_iter self (IterList (<[i := snd (next it None)]> l))) ∧
     (audit_due rnd = false →
      fst (get_support self y (replicate (Datatypes.S k) e0) rnd) = fst (next it None))).
Proof.
  intros Hmatch. split.
  - intros e0 rest e Hin Hne. unfold get_support, sample. rewrite Hmatch.
    cbn [String.eqb Ascii.eqb Bool.eqb andb].
    by rewrite (all_equal_first_mixed e0 rest e Hin Hne).
  - intros e0 k m i l it Hm Hi Hl Hit.
    assert (sample self y (replicate (Datatypes.S k) e0) rnd
            = (fst (next it None),
               set_train_iter self (IterList (<[i := snd (next it None)]> l)))) as Hs.
    { unfold sample. rewrite Hmatch. cbn [String.eqb Ascii.eqb Bool.eqb andb].
      rewrite all_equal_first_replicate, Hm. cbn [getattr replicate hd].
      rewrite Hi, Hl, Hit. by destruct (next it None). }
    split; [done|]. intros Hdue. unfold get_support. rewrite Hs, Hdue.
    cbn [fst]. by destruct (fst (next it None)).
Qed.

End TrainFacts.

(** *** The training provider on concrete samplers *)

Lemma verify_sy_raises_attribute_error_witness :
  ∃ self,
    SupportSetTrain.__init__ (S:=Toy.Recorder) (OneDataset Toy.ds4) 2 "random" 1 None
      (Some Toy.env4) = Ok self ∧
    SupportSetTrain._verify_sy self [1; 0] = Raise SupportSetTrain.missing_num_per_class ∧
    isinstance SupportSetTrain.missing_num_per_class "AttributeError" = true ∧
    (∀ sy', SupportSetTrain._verify_sy self sy' ≠ Ok tt).
Proof.
  eexists. split; [run|].
  apply verify_sy_raises_attribute_error.
  - apply (Reach.reach_init (OneDataset Toy.ds4) 2%nat "random" 1%nat None (Some Toy.env4)).
    vm_compute. reflexivity.
  - vm_compute. reflexivity.
Defined.

(** C1 at the failing input: on a provider built with the [unbalanced]
    policy the check is not skipped.  [_verify_sy] goes past line 107 into
    the assertions: it raises an AssertionError on the labels [0, 0] and
    the AttributeError of line 110 on the labels [0, 1].  And [get_support]
    does not return a batch either: line 86 already raises, since
    [self.train_iter] is a list. *)
Theorem unbalanced_check_not_skipped :
  ∃ self,
    SupportSetTrain.__init__ (S:=Toy.Recorder) (OneDataset Toy.ds4) 2 "unbalanced" 1 None
      (Some Toy.env4) = Ok self ∧
    SupportSetTrain._verify_sy self [0; 0] = Raise AssertionError ∧
    SupportSetTrain._verify_sy self [0; 1] = Raise SupportSetTrain.missing_num_per_class ∧
    fst (SupportSetTrain.get_support self [0] [1; 1] Toy.audited)
    = Raise (AttributeError "'list' object has no attribute 'next'").
Proof. eexists. repeat split; run. Qed.

(** C2, as stated, fails: on a provider built with the [random] policy two
    calls that differ only in the label argument send different [next]
    requests to the sampler and return different batches. *)
Lemma random_forwards_label :
  ∃ self,
    SupportSetTrain.__init__ (S:=Toy.Recorder) (OneDataset Toy.ds4) 2 "random" 1 None
      (Some Toy.env4) = Ok self ∧
    fst (SupportSetTrain.get_support self [0] [1; 1] Toy.unaudited) = Ok (0%nat, [0], tt) ∧
    fst (SupportSetTrain.get_support self [1] [1; 1] Toy.unaudited) = Ok (0%nat, [1], tt) ∧
    SupportSetTrain.train_iter (snd (SupportSetTrain.get_support self [0] [1; 1] Toy.unaudited))
    = SupportSetTrain.OneLoader {| Toy.pool := [0; 1]; Toy.calls := [Some [0]] |} ∧
    SupportSetTrain.train_iter (snd (SupportSetTrain.get_support self [1] [1; 1] Toy.unaudited))
    = SupportSetTrain.OneLoader {| Toy.pool := [0; 1]; Toy.calls := [Some [1]] |} ∧
    SupportSetTrain.get_support self [0] [1; 1] Toy.unaudited
    ≠ SupportSetTrain.get_support self [1] [1; 1] Toy.unaudited.
Proof.
  eexists. repeat split; try run.
  vm_compute. discriminate.
Qed.

Lemma random_ignores_env_index_witness :
  ∃ self,
    SupportSetTrain.__init__ (S:=Toy.Recorder) (OneDataset Toy.ds4) 2 "random" 1 None
      (Some Toy.env4) = Ok self ∧
    SupportSetTrain.get_support self [0] [1; 1] Toy.unaudited
    = SupportSetTrain.get_support self [0] [2; 1; 7] Toy.unaudited.
Proof.
  eexists. split; [run|].
  eapply proj1. apply random_ignores_env_index. reflexivity.
Defined.

(** C5, as stated, fails: under the [match] policy the mixed ids [1, 2]
    make [get_support] raise, but what it raises is an AssertionError, which
    is no PreconditionError. *)
Lemma match_mixed_ids_assertion_error :
  ∃ self,
    SupportSetTrain.__init__ (S:=Toy.Recorder) (OneDataset Toy.ds4) 2 "match" 1 None
      (Some Toy.env4) = Ok self ∧
    fst (SupportSetTrain.get_support self [0] [1; 2] Toy.unaudited) = Raise AssertionError ∧
    ¬ (∃ e, fst (SupportSetTrain.get_support self [0] [1; 2] Toy.unaudited) = Raise e ∧
            isinstance e "PreconditionError" = true).
Proof.
  eexists. split; [run|]. split; [run|].
  intros (e & He & Hinst). vm_compute in He. injection He as <-.
  vm_compute in Hinst. discriminate.
Qed.

Lemma match_draws_from_mapped_env_witness :
  ∃ self,
    SupportSetTrain.__init__ (S:=Toy.Recorder) (OneDataset Toy.ds4) 2 "match" 1 None
      (Some Toy.env4) = Ok self ∧
    SupportSetTrain.get_support self [0] [1; 2] Toy.unaudited = (Raise AssertionError, self) ∧
    SupportSetTrain.train_iter
      (snd (SupportSetTrain.sample self [0] [2; 2; 2] Toy.unaudited))
    = SupportSetTrain.IterList
        [{| Toy.pool := [0; 1]; Toy.calls := [] |};
         {| Toy.pool := [0; 1]; Toy.calls := [None] |}] ∧
    fst (SupportSetTrain.get_support self [0] [2; 2; 2] Toy.unaudited)
    = Ok (0%nat, [0; 1], tt).
Proof.
  eexists. split; [run|].
  match goal with |- ?G ∧ _ =>
    match G with SupportSetTrain.get_support ?s _ _ _ = _ =>
      pose proof (match_draws_from_mapped_env s [0] Toy.unaudited eq_refl) as [Hmixed Hsame]
    end end.
  split; [apply (Hmixed 1 [2] 2); [by left|done]|].
  edestruct (Hsame 2 2%nat) as [Hsample Hget]; [reflexivity|vm_compute; reflexivity|
    reflexivity|reflexivity|].
  split.
  - change [2; 2; 2] with (replicate 3 2). rewrite Hsample. reflexivity.
  - change [2; 2; 2] with (replicate 3 2). rewrite Hget by reflexivity. reflexivity.
Defined.

(** ** The evaluation provider *)

Section EvalFacts.
Context {V Mt Qy R K H F : Type} `{!EvalCollaborators V Mt Qy R K H F}.
Import SupportSetEval.
Implicit Types (self : SupportSetEval.t V Mt R K H F) (mode : string) (x : option Qy).

Lemma init_fresh support_set n_classes n_shot_random n_shot_full n_shot_cluster
    n_neighbors env_array self :
  __init__ support_set n_classes n_shot_random n_shot_full n_shot_cluster
    n_neighbors env_array = Ok self →
  fresh self.
Proof.
  unfold __init__. destruct (SupportSet.__init__ _ _ _); [|done]. simpl.
  destruct (_build_full_loader _ _); [|done]. simpl.
  intros [= <-]. done.
Qed.

Lemma handler_unknown_mode self mode x :
  mode ∉ modes → handler self mode x = (Raise NotImplementedError, self).
Proof.
  intros Hmode. unfold handler, modes in *.
  repeat match goal with
         | |- context [String.eqb mode ?m] =>
             destruct (String.eqb_spec mode m) as [->|_];
             [exfalso; apply Hmode; repeat constructor|]
         end.
  done.
Qed.

(** C7, amended: a mode outside the six names makes [get_support] raise
    Python's NotImplementedError, which the [except AttributeError] clause
    lets through, and changes nothing on the object. *)
Theorem unknown_mode_not_implemented self mode x :
  mode ∉ modes →
  get_support self mode x = (Raise NotImplementedError, self) ∧
  exn_name NotImplementedError = "NotImplementedError".
Proof.
  intros Hmode. split; [|done].
  unfold get_support. by rewrite handler_unknown_mode.
Qed.

Lemma handler_fresh self mode x :
  fresh self → mode ∈ modes →
  ∃ name, handler self mode x
          = (Raise (AttributeError ("'SupportSetEval' object has no attribute '" +:+ name +:+ "'")),
             self).
Proof.
  intros (Hff & Hfy & Hfs & Hys & Hcf & Hcy & Hri & Hknn & Hhnsw) Hmode.
  unfold modes in Hmode. unfold handler.
  repeat (apply elem_of_cons in Hmode as [->|Hmode];
          [cbn [String.eqb Ascii.eqb Bool.eqb andb];
           rewrite ?Hff, ?Hfy, ?Hfs, ?Hys, ?Hcf, ?Hcy, ?Hri, ?Hknn, ?Hhnsw;
           eexists; reflexivity|]).
  by apply elem_of_nil in Hmode.
Qed.

(** C6, amended: on a provider that was constructed and on which
    [build_infer_iters] has not run, [get_support] with any of the six mode
    names raises an AttributeError whose message is
    "Did you run precompute()?", and changes nothing on the object. *)
Theorem get_support_before_precompute support_set n_classes n_shot_random n_shot_full
    n_shot_cluster n_neighbors env_array self mode x :
  __init__ support_set n_classes n_shot_random n_shot_full n_shot_cluster
    n_neighbors env_array = Ok self →
  mode ∈ modes →
  get_support self mode x = (Raise (AttributeError "Did you run precompute()?"), self).
Proof.
  intros Hinit Hmode. apply init_fresh in Hinit.
  destruct (handler_fresh self mode x Hinit Hmode) as [name Hh].
  unfold get_support. by rewrite Hh.
Qed.


End EvalFacts.

(** ** Cluster prototypes *)

Section ClusterFacts.
Context {V Mt Qy R K H F : Type} `{!EvalCollaborators V Mt Qy R K H F}.
Import SupportSetEval.
Implicit Types (self : SupportSetEval.t V Mt R K H F).

(** The contract of the clustering primitive: it returns as many centroids
    as it was asked for. *)
Hypothesis KMeans_count :
  ∀ (n : nat) (rows centroids : list V),
    KMeans_fit n rows = Ok centroids → length centroids = n.

Lemma clusters_loop_spec embeddings labels img_ids n classes sfeat slabel sf sl :
  clusters_loop embeddings labels img_ids n classes sfeat slabel = Ok (sf, sl) →
  ∃ protos,
    sf = sfeat ++ protos ∧
    sl = slabel ++ concat (replicate n <$> classes) ∧
    Forall2 (is_prototypes embeddings labels n) classes protos.
Proof.
  revert sfeat slabel. induction classes as [|c classes IH]; intros sfeat slabel.
  - intros [= <- <-]. exists []. rewrite !app_nil_r. repeat split. constructor.
  - cbn [clusters_loop].
    destruct (Np.mask_eq embeddings labels c) as [rows|] eqn:Hrows; [|done].
    cbn [mbind result_bind].
    destruct (Np.mask_eq img_ids labels c); [|done]. cbn [mbind result_bind].
    destruct (KMeans_fit n rows) as [centroids|] eqn:Hfit; [|done].
    cbn [mbind result_bind]. intros Hloop.
    destruct (IH _ _ Hloop) as (protos & -> & -> & Hall).
    exists (centroids :: protos). rewrite <- !app_assoc. repeat split.
    constructor; [|done]. split; [by eapply KMeans_count|]. by exists rows.
Qed.

Lemma length_concat_prototypes embeddings labels n classes protos :
  Forall2 (is_prototypes embeddings labels n) classes protos →
  length (concat protos) = (length classes * n)%nat.
Proof.
  induction 1 as [|c cen classes protos [Hlen _] _ IH]; [done|].
  cbn [concat]. rewrite length_app, IH, Hlen. simpl. lia.
Qed.

Lemma compute_clusters_spec self embeddings labels cf cy :
  full_feat self = Some embeddings → full_y self = Some labels →
  _compute_clusters self = Ok (cf, cy) →
  ∃ protos,
    Forall2 (is_prototypes embeddings labels (n_shot_cluster self))
      (Np.unique labels) protos ∧
    cf = concat protos ∧
    cy = concat (replicate (n_shot_cluster self) <$> Np.unique labels).
Proof.
  intros Hf Hy. unfold _compute_clusters. rewrite Hf, Hy. cbn [getattr mbind result_bind].
  destruct (clusters_loop _ _ _ _ _ _ _) as [[sf sl]|] eqn:Hloop; [|done].
  cbn [mbind result_bind fst snd].
  apply clusters_loop_spec in Hloop as (protos & -> & -> & Hall).
  rewrite !app_nil_l. unfold torch_cat.
  destruct protos as [|p protos]; [done|]. cbn [mbind result_bind].
  intros [= <- <-]. by exists (p :: protos).
Qed.

(** What a completed [build_infer_iters] has stored as clusters. *)
Lemma build_infer_iters_clusters self sfeat sy smeta sfeat_env sy_env smeta_env self' :
  build_infer_iters self sfeat sy smeta sfeat_env sy_env smeta_env = (Ok tt, self') →
  ∃ cf cy,
    _compute_clusters (set_full self sfeat sy smeta sfeat_env sy_env smeta_env)
      = Ok (cf, cy) ∧
    cluster_feat self' = Some cf ∧ cluster_y self' = Some cy.
Proof.
  unfold build_infer_iters.
  destruct (_compute_clusters _) as [[cf cy]|]; [|done].
  destruct (feature_iter _ _ _ _); [|done].
  destruct (KNN _ _ _); [|done].
  destruct (HNSW _ _ _); [|done].
  intros [= <-]. by exists cf, cy.
Qed.

(** C4: after [build_infer_iters] has completed, the cluster features are
    the concatenation, over the distinct labels of the full label set in
    ascending order, of the [n_shot_cluster] centroids of that label's
    feature rows, and the cluster labels repeat each label [n_shot_cluster]
    times in the same order; when the labels present are exactly
    [0..n_classes-1] there are [n_classes * n_shot_cluster] rows. *)
Theorem cluster_prototypes self sfeat sy smeta sfeat_env sy_env smeta_env self' :
  build_infer_iters self sfeat sy smeta sfeat_env sy_env smeta_env = (Ok tt, self') →
  let n := n_shot_cluster self in
  let n_classes := SupportSet.n_classes (base self) in
  ∃ protos,
    Forall2 (is_prototypes sfeat sy n) (Np.unique sy) protos ∧
    cluster_feat self' = Some (concat protos) ∧
    cluster_y self' = Some (concat (replicate n <$> Np.unique sy)) ∧
    length (concat protos) = (length (Np.unique sy) * n)%nat ∧
    ((∀ c, c ∈ sy ↔ 0 ≤ c < Z.of_nat n_classes) →
     length (concat protos) = (n_classes * n)%nat ∧
     cluster_y self' = Some (concat (replicate n <$> Np.arange n_classes))).
Proof.
  intros Hbuild n n_classes.
  apply build_infer_iters_clusters in Hbuild as (cf & cy & Hcc & Hcf & Hcy).
  apply (compute_clusters_spec _ sfeat sy) in Hcc as (protos & Hall & -> & ->);
    [|done..].
  exists protos. change (n_shot_cluster (set_full _ _ _ _ _ _ _)) with n in *.
  pose proof (length_concat_prototypes _ _ _ _ _ Hall) as Hlen.
  repeat split; try done.
  - rewrite Hlen. rewrite (unique_all_classes sy n_classes) by done.
    unfold Np.arange. by rewrite length_fmap, length_seq.
  - by rewrite Hcy, (unique_all_classes sy n_classes).
Qed.

Lemma mask_eq_ok {A} (a : list A) labels c :
  length a = length labels → ∃ rows, Np.mask_eq a labels c = Ok rows.
Proof.
  revert labels. induction a as [|x a IH]; intros [|l labels] Hlen; try done.
  - by exists [].
  - destruct (IH labels) as [rows Hrows]; [simpl in Hlen; lia|].
    cbn [Np.mask_eq]. rewrite Hrows. cbn [mbind result_bind]. eauto.
Qed.

(** The loop completes when there is a label for every feature row and the
    clustering succeeds on the rows of every class. *)
Lemma clusters_loop_total embeddings labels n classes sfeat slabel :
  length embeddings = length labels →
  (∀ c rows, c ∈ classes → Np.mask_eq embeddings labels c = Ok rows →
             is_ok (KMeans_fit n rows) = true) →
  is_ok (clusters_loop embeddings labels (Np.arange (length embeddings)) n classes
           sfeat slabel) = true.
Proof.
  intros Hlen. revert sfeat slabel.
  induction classes as [|c classes IH]; intros sfeat slabel Hfit; [done|].
  cbn [clusters_loop].
  destruct (mask_eq_ok embeddings labels c Hlen) as [rows Hrows].
  destruct (mask_eq_ok (Np.arange (length embeddings)) labels c) as [ids Hids].
  { unfold Np.arange. by rewrite length_fmap, length_seq. }
  rewrite Hrows, Hids. cbn [mbind result_bind].
  pose proof (Hfit c rows ltac:(left) Hrows) as Hok.
  destruct (KMeans_fit n rows); [|done]. cbn [mbind result_bind].
  apply IH. intros c' rows' Hc'. apply Hfit. by right.
Qed.

(** [build_infer_iters] completes when the label set is not empty, has a
    label for every feature row, and the collaborators succeed. *)
Lemma build_infer_iters_total self sfeat sy smeta sfeat_env sy_env smeta_env :
  length sfeat = length sy → sy ≠ [] →
  (∀ c rows, c ∈ sy → Np.mask_eq sfeat sy c = Ok rows →
             is_ok (KMeans_fit (n_shot_cluster self) rows) = true) →
  is_ok (feature_iter sfeat sy smeta (n_shot_random self)) = true →
  is_ok (KNN sfeat sy (n_neighbors self)) = true →
  is_ok (HNSW sfeat sy (n_neighbors self)) = true →
  is_ok (fst (build_infer_iters self sfeat sy smeta sfeat_env sy_env smeta_env)) = true.
Proof.
  intros Hlen Hne Hfit Hiter Hknn Hhnsw. unfold build_infer_iters.
  set (self1 := set_full self sfeat sy smeta sfeat_env sy_env smeta_env).
  assert (∃ cf cy, _compute_clusters self1 = Ok (cf, cy)) as (cf & cy & ->).
  { unfold _compute_clusters. cbn [self1 set_full full_feat full_y n_shot_cluster
      getattr mbind result_bind].
    pose proof (clusters_loop_total sfeat sy (n_shot_cluster self) (Np.unique sy) [] []
                  Hlen) as Hloop.
    destruct (clusters_loop _ _ _ _ _ _ _) as [[sf sl]|] eqn:Heq.
    - apply clusters_loop_spec in Heq as (protos & -> & -> & Hall).
      cbn [mbind result_bind fst snd app]. destruct protos as [|p protos].
      + apply Forall2_nil_inv_r in Hall. destruct sy as [|l sy]; [done|].
        assert (l ∈ Np.unique (l :: sy)) as Hin by (apply elem_of_unique; left).
        rewrite Hall in Hin. by apply elem_of_nil in Hin.
      + cbn [torch_cat mbind result_bind]. eauto.
    - exfalso. enough (false = true) by done. apply Hloop.
      intros c rows Hc. apply Hfit. by apply elem_of_unique. }
  cbn [self1 set_cluster set_full n_shot_random n_neighbors].
  destruct (feature_iter _ _ _ _); [|done].
  cbn [set_random_iter n_neighbors]. destruct (KNN _ _ _); [|done].
  cbn [set_knn n_neighbors]. by destruct (HNSW _ _ _).
Qed.

End ClusterFacts.

(** *** The evaluation provider on concrete collaborators *)

Lemma toy_KMeans_count (n : nat) (rows centroids : list Z) :
  KMeans_fit (V:=Z) n rows = Ok centroids → length centroids = n.
Proof.
  unfold KMeans_fit, Toy.toy_eval.
  destruct (Nat.ltb_spec (length rows) n); [done|].
  intros [= <-]. rewrite length_take. lia.
Qed.

Lemma cluster_prototypes_witness :
  ∃ self self',
    SupportSetEval.__init__ (OneDataset Toy.ds6) 3 1 1 2 2 None = Ok self ∧
    SupportSetEval.build_infer_iters self Toy.feat6 Toy.y6 tt [Toy.feat6] [Toy.y6] [tt]
      = (Ok tt, self') ∧
    length <$> SupportSetEval.cluster_feat self' = Some 6%nat ∧
    SupportSetEval.cluster_y self' = Some [0; 0; 1; 1; 2; 2].
Proof.
  assert (∃ self, SupportSetEval.__init__ (OneDataset Toy.ds6) 3 1 1 2 2 None = Ok self)
    as [self Hinit] by (vm_compute; eauto).
  assert (∃ self', SupportSetEval.build_infer_iters self Toy.feat6 Toy.y6 tt
                     [Toy.feat6] [Toy.y6] [tt] = (Ok tt, self')) as [self' Hbuild].
  { revert Hinit. vm_compute. intros [= <-]. eauto. }
  exists self, self'. split; [exact Hinit|]. split; [exact Hbuild|].
  pose proof (cluster_prototypes toy_KMeans_count self Toy.feat6 Toy.y6 tt [Toy.feat6]
                [Toy.y6] [tt] self' Hbuild) as (protos & _ & Hfeat & _ & _ & Hall).
  vm_compute in Hinit. injection Hinit as <-.
  destruct Hall as [Hlen Hy].
  - intros c. unfold Toy.y6. rewrite !elem_of_cons, elem_of_nil. cbn. lia.
  - rewrite Hfeat, Hy. cbn [fmap option_fmap option_map]. rewrite Hlen. done.
Defined.

(** C6, as stated, fails: on a provider that was just constructed,
    [get_support('random')] raises an AttributeError, not a
    PreconditionError, and with a mode name it does not know it raises a
    NotImplementedError. *)
Lemma before_precompute_attribute_error :
  ∃ self,
    SupportSetEval.__init__ (OneDataset Toy.ds6) 3 1 1 2 2 None = Ok self ∧
    fst (SupportSetEval.get_support self "random" None)
    = Raise (AttributeError "Did you run precompute()?") ∧
    fst (SupportSetEval.get_support self "nearest" None) = Raise NotImplementedError ∧
    ¬ (∃ e, fst (SupportSetEval.get_support self "random" None) = Raise e ∧
            isinstance e "PreconditionError" = true).
Proof.
  eexists. split; [run|]. split; [run|].
  split; [run|].
  intros (e & He & Hinst). vm_compute in He. injection He as <-.
  vm_compute in Hinst. discriminate.
Qed.

Lemma get_support_before_precompute_witness :
  ∃ self,
    SupportSetEval.__init__ (OneDataset Toy.ds6) 3 1 1 2 2 None = Ok self ∧
    SupportSetEval.get_support self "cluster" (Some 5)
    = (Raise (AttributeError "Did you run precompute()?"), self).
Proof.
  eexists. split; [run|].
  eapply (get_support_before_precompute (OneDataset Toy.ds6) 3%nat 1%nat 1%nat 2%nat
            2%nat None).
  - vm_compute. reflexivity.
  - unfold SupportSetEval.modes. rewrite !elem_of_cons. tauto.
Defined.

(** C7, as stated, fails: the mode name "nearest" makes [get_support] raise
    a NotImplementedError, which is no UnsupportedModeError. *)
Lemma unknown_mode_error_class :
  ∃ self,
    SupportSetEval.__init__ (OneDataset Toy.ds6) 3 1 1 2 2 None = Ok self ∧
    fst (SupportSetEval.get_support self "nearest" None) = Raise NotImplementedError ∧
    ¬ (∃ e, fst (SupportSetEval.get_support self "nearest" None) = Raise e ∧
            isinstance e "UnsupportedModeError" = true).
Proof.
  eexists. split; [run|]. split; [run|].
  intros (e & He & Hinst). vm_compute in He. injection He as <-.
  vm_compute in Hinst. discriminate.
Qed.

Lemma unknown_mode_not_implemented_witness :
  ∃ self,
    SupportSetEval.__init__ (OneDataset Toy.ds6) 3 1 1 2 2 None = Ok self ∧
    SupportSetEval.get_support self "nearest" (Some 5) = (Raise NotImplementedError, self) ∧
    exn_name NotImplementedError = "NotImplementedError".
Proof.
  eexists. split; [run|].
  apply unknown_mode_not_implemented.
  unfold SupportSetEval.modes. rewrite !elem_of_cons, elem_of_nil.
  intros Hin. repeat (destruct Hin as [Hin|Hin]; [discriminate|]). done.
Defined.



(** * Further properties of the module *)

(** ** What [_separate_env_datasets] builds *)

Module SeparateFacts.
Import Np NpFacts SupportSet RoundTrip PartitionFacts InitFacts.

Lemma elem_of_nonzero_eq_from i env a j :
  j ∈ nonzero_eq_from i env a ↔ ∃ k, j = (i + k)%nat ∧ env !! k = Some a.
Proof.
  revert i. induction env as [|e env IH]; intros i; simpl.
  - rewrite elem_of_nil. split; [done|]. by intros (k & _ & ?).
  - assert (j ∈ nonzero_eq_from (Datatypes.S i) env a
            ↔ ∃ k, j = (i + Datatypes.S k)%nat ∧ env !! k = Some a) as Hrest.
    { rewrite IH. split; intros (k & -> & Hk); exists k; split; (lia || done). }
    destruct (Z.eqb_spec e a) as [->|Hne].
    + rewrite elem_of_cons, Hrest. split.
      * intros [->|(k & -> & Hk)]; [exists 0%nat|exists (Datatypes.S k)];
          split; (lia || done).
      * intros ([|k] & -> & Hk); [left; lia|right; by exists k].
    + rewrite Hrest. split.
      * intros (k & -> & Hk). by exists (Datatypes.S k).
      * intros ([|k] & -> & Hk); [simpl in Hk; congruence|by exists k].
Qed.

Lemma elem_of_nonzero_eq env a j : j ∈ nonzero_eq env a ↔ env !! j = Some a.
Proof.
  unfold nonzero_eq. rewrite elem_of_nonzero_eq_from. split.
  - by intros (k & -> & Hk).
  - intros Hj. by exists j.
Qed.

Lemma nonzero_eq_from_sorted i env a :
  StronglySorted lt (nonzero_eq_from i env a).
Proof.
  revert i. induction env as [|e env IH]; intros i; simpl; [constructor|].
  destruct (e =? a); [|apply IH].
  constructor; [apply IH|]. apply Forall_forall. intros j Hj.
  apply elem_of_nonzero_eq_from in Hj as (k & -> & _). lia.
Qed.

(** Integer-array indexing that succeeds has read every position. *)
Lemma take_lookup {A} (a : list A) indices r :
  take a indices = Ok r →
  length r = length indices ∧
  ∀ k j, indices !! k = Some j → is_Some (a !! j) ∧ r !! k = a !! j.
Proof.
  unfold take. revert r. induction indices as [|i indices IH]; intros r; simpl.
  - intros [= <-]. split; [done|]. intros k j Hk. done.
  - destruct (a !! i) as [x|] eqn:Hx; [|done]. cbn [mbind result_bind].
    destruct (mapR _ indices) as [r'|]; [|done]. cbn [mbind result_bind].
    intros [= <-]. destruct (IH r' eq_refl) as [Hlen Hall].
    split; [simpl; lia|]. intros [|k] j Hk; simpl in Hk.
    + injection Hk as <-. rewrite Hx. eauto.
    + by apply Hall.
Qed.


(** What the loop has done when it ends without raising. *)
Lemma separate_loop_inv y env combined i attrs m acc envs m' :
  NoDup attrs →
  separate_loop y env combined i attrs m acc = (Ok envs, m') →
  ∃ views,
    envs = acc ++ views ∧
    Forall2 (is_view y env combined) attrs views ∧
    (∀ k a, attrs !! k = Some a → m' !! a = Some (i + k)%nat) ∧
    (∀ a, a ∉ attrs → m' !! a = m !! a).
Proof.
  intros Hnd. revert i m acc.
  induction Hnd as [|a attrs Ha Hnd IH]; intros i m acc; simpl.
  - intros [= <- <-]. exists []. rewrite app_nil_r.
    repeat split; [constructor|done].
  - destruct (take y (nonzero_eq env a)) as [t|] eqn:Htake; [|done].
    intros Hloop. apply IH in Hloop as (views & -> & Hviews & Hin & Hout).
    eexists (_ :: views). rewrite <- app_assoc. split; [done|].
    split; [constructor; [done|exact Hviews]|]. split.
    + intros [|k] a' Hk; simpl in Hk.
      * injection Hk as <-. rewrite Hout by done.
        rewrite lookup_insert_eq. f_equal. lia.
      * rewrite (Hin k a' Hk). f_equal. lia.
    + intros a' Ha'. apply not_elem_of_cons in Ha' as [Hne Ha'].
      rewrite Hout by done. by rewrite lookup_insert_ne.
Qed.


(** The constructor with an environment array, inverted. *)
Lemma init_with_env_inv d n env self :
  __init__ (OneDataset d) n (Some env) = Ok self →
  ∃ m views,
    self = {| y_array := ud_targets d; n_classes := n; env_array := env;
              combined_dataset :=
                Some (CombinedMeta {| dm_dataset := d; dm_metadata := env |});
              env_datasets := Some views; env_map := Some m |} ∧
    Forall2 (is_view (ud_targets d) env {| dm_dataset := d; dm_metadata := env |})
      (unique env) views ∧
    (∀ k a, unique env !! k = Some a → m !! a = Some k) ∧
    (∀ a, a ∉ unique env → m !! a = None).
Proof.
  unfold __init__, _separate_env_datasets. cbn [y_array env_array].
  destruct (separate_loop _ _ _ _ _ _ _) as [[envs|e] m] eqn:Hloop; [|done].
  cbn [mbind result_bind]. intros [= <-].
  apply separate_loop_inv in Hloop as (views & -> & Hviews & Hin & Hout);
    [|apply unique_NoDup].
  exists m, views. repeat split; try done.
Qed.

End SeparateFacts.

Import SeparateFacts.

(** X1: on a support set constructed with an environment array, the
    environment map sends the [i]-th smallest distinct environment id to
    [i] and holds nothing else: it is a bijection between the distinct ids
    and the positions of the environment views. *)
Theorem env_map_is_dense d n env self :
  SupportSet.__init__ (OneDataset d) n (Some env) = Ok self →
  ∃ m views,
    SupportSet.env_map self = Some m ∧
    SupportSet.env_datasets self = Some views ∧
    length views = length (unique env) ∧
    (∀ a i, m !! a = Some i ↔ unique env !! i = Some a) ∧
    (∀ a, is_Some (m !! a) ↔ a ∈ env).
Proof.
  intros Hinit.
  apply init_with_env_inv in Hinit as (m & views & -> & Hviews & Hin & Hout).
  exists m, views. split; [done|]. split; [done|].
  split; [symmetry; by eapply Forall2_length|].
  assert (∀ a i, m !! a = Some i ↔ unique env !! i = Some a) as Hiff.
  { intros a i. split; [|apply Hin].
    intros Hm. destruct (decide (a ∈ unique env)) as [Ha|Ha].
    - apply list_elem_of_lookup in Ha as [k Hk].
      rewrite (Hin k a Hk) in Hm. by injection Hm as <-.
    - rewrite Hout in Hm by done. done. }
  split; [exact Hiff|].
  intros a. rewrite <- elem_of_unique. split.
  - intros [i Hi]. apply Hiff in Hi. by eapply list_elem_of_lookup_2.
  - intros Ha. apply list_elem_of_lookup in Ha as [k Hk]. exists k. by apply Hiff.
Qed.

Lemma env_map_is_dense_witness :
  ∃ self m,
    SupportSet.__init__ (OneDataset Toy.ds3) 3 (Some Toy.env3) = Ok self ∧
    SupportSet.env_map self = Some m ∧ m !! 0 = Some 0%nat ∧ m !! 1 = Some 1%nat ∧
    m !! 2 = None.
Proof.
  assert (∃ self, SupportSet.__init__ (OneDataset Toy.ds3) 3 (Some Toy.env3) = Ok self)
    as [self Hinit] by (vm_compute; eauto).
  destruct (env_map_is_dense Toy.ds3 3 Toy.env3 self Hinit)
    as (m & views & Hm & _ & _ & Hiff & Hdom).
  exists self, m. split; [done|]. split; [done|].
  split; [by apply Hiff|]. split; [by apply Hiff|].
  apply eq_None_not_Some. rewrite Hdom. unfold Toy.env3.
  rewrite !elem_of_cons, elem_of_nil. lia.
Defined.

(** X2: on a support set constructed with an environment array there is
    one view per distinct environment id, in ascending id order; the view
    of id [a] indexes exactly the items whose environment id is [a], in
    ascending item order, and its label array holds the label of each of
    those items at the same local position. *)
Theorem env_views_partition_items d n env self :
  SupportSet.__init__ (OneDataset d) n (Some env) = Ok self →
  ∃ views,
    SupportSet.env_datasets self = Some views ∧
    Forall2 (λ a v,
      (∀ j, j ∈ subset_indices v ↔ env !! j = Some a) ∧
      StronglySorted lt (subset_indices v) ∧
      subset_indices v ≠ [] ∧
      length (subset_targets v) = length (subset_indices v) ∧
      (∀ k j, subset_indices v !! k = Some j →
              is_Some (ud_targets d !! j) ∧ subset_targets v !! k = ud_targets d !! j))
      (unique env) views.
Proof.
  intros Hinit.
  apply init_with_env_inv in Hinit as (m & views & -> & Hviews & _ & _).
  exists views. split; [done|].
  assert (∀ a, a ∈ unique env → a ∈ env) as Hu by (intros; by apply elem_of_unique).
  revert Hu. induction Hviews as [|a v attrs views (_ & Hidx & Htake) _ IH];
    intros Hu; constructor.
  - rewrite Hidx. apply take_lookup in Htake as [Hlen Hall].
    split; [intros; apply elem_of_nonzero_eq|].
    split; [apply nonzero_eq_from_sorted|].
    split; [|done].
    assert (a ∈ env) as Ha by (apply Hu; left).
    apply list_elem_of_lookup in Ha as [j Hj].
    apply elem_of_nonzero_eq in Hj. intros Hnil. rewrite Hnil in Hj.
    by apply elem_of_nil in Hj.
  - apply IH. intros. apply Hu. by right.
Qed.

Lemma env_views_partition_items_witness :
  ∃ self views,
    SupportSet.__init__ (OneDataset Toy.ds3) 3 (Some Toy.env3) = Ok self ∧
    SupportSet.env_datasets self = Some views ∧
    subset_indices <$> views = [[1%nat]; [0%nat; 2%nat]] ∧
    subset_targets <$> views = [[1]; [0; 2]].
Proof.
  assert (∃ self, SupportSet.__init__ (OneDataset Toy.ds3) 3 (Some Toy.env3) = Ok self)
    as [self Hinit] by (vm_compute; eauto).
  destruct (env_views_partition_items Toy.ds3 3 Toy.env3 self Hinit) as (views & Hv & _).
  exists self, views. split; [done|]. split; [done|].
  vm_compute in Hinit. injection Hinit as <-. cbn in Hv. injection Hv as <-. done.
Defined.

(** ** The constructor on its input shapes *)

Module ShapeFacts.
Import Np NpFacts SupportSet RoundTrip PartitionFacts InitFacts SeparateFacts.

Lemma unique_replicate n a : n ≠ 0%nat → unique (replicate n a) = [a].
Proof.
  intros Hn. apply sorted_lt_ext; [apply unique_sorted|repeat constructor|].
  intros x. rewrite elem_of_unique, list_elem_of_singleton, elem_of_replicate. tauto.
Qed.

Lemma nonzero_eq_from_replicate i n a :
  nonzero_eq_from i (replicate n a) a = seq i n.
Proof.
  revert i. induction n as [|n IH]; intros i; simpl; [done|].
  by rewrite Z.eqb_refl, IH.
Qed.

Lemma labels_of_env_replicate (y : list Z) a :
  labels_of_env (replicate (length y) a) y a = y.
Proof. induction y as [|l y IH]; simpl; [done|]. by rewrite Z.eqb_refl, IH. Qed.

(** The sum of the view lengths is the number of environment ids, however
    many labels there are beyond them. *)
Lemma sum_len_views_env combined env y :
  (length env ≤ length y)%nat →
  sum_list (len_subset <$> (view_of combined env y <$> unique env)) = length env.
Proof.
  intros Hlen. rewrite sum_len_views by done.
  transitivity (length (concat (labels_of_env env (firstn (length env) y) <$> unique env))).
  - f_equal. f_equal. apply list_fmap_ext. intros _ a _. clear.
    revert y. induction env as [|e env IH]; intros [|l y]; simpl; try done.
    destruct (e =? a); by rewrite IH.
  - fold (grouped_by_env env (firstn (length env) y)).
    rewrite grouped_perm; rewrite length_take; lia.
Qed.

End ShapeFacts.

Import ShapeFacts.

(** X3: a single dataset whose length is the number of its labels, given
    alone (and not empty) or with an environment array of one id per item,
    is constructed, and its combined view is as long as its environment
    views together. *)
Theorem single_dataset_lengths_agree d n (env_array : option (list Z)) :
  ud_len d = length (ud_targets d) →
  match env_array with
  | Some env => length env = ud_len d
  | None => ud_len d ≠ 0%nat
  end →
  ∃ self c envs,
    SupportSet.__init__ (OneDataset d) n env_array = Ok self ∧
    SupportSet.combined_dataset self = Some c ∧
    SupportSet.env_datasets self = Some envs ∧
    SupportSet.y_array self = ud_targets d ∧
    len_combined c = length (SupportSet.y_array self) ∧
    len_combined c = sum_list (len_subset <$> envs).
Proof.
  intros Hlen Henv.
  destruct (init_lengths_agree d n env_array Hlen Henv)
    as (self & c & envs & Hinit & Hc & Henvs & Hsum).
  exists self, c, envs. repeat split; try done.
  - destruct env_array as [env|].
    + destruct (init_with_env d n env) as [m Hm]; [lia|]. rewrite Hm in Hinit.
      by injection Hinit as <-.
    + destruct (init_single d n Hlen Henv) as [m Hm]. rewrite Hm in Hinit.
      by injection Hinit as <-.
  - destruct env_array as [env|].
    + destruct (init_with_env d n env) as [m Hm]; [lia|]. rewrite Hm in Hinit.
      injection Hinit as <-. simpl in *. by injection Hc as <-.
    + destruct (init_single d n Hlen Henv) as [m Hm]. rewrite Hm in Hinit.
      injection Hinit as <-. simpl in *. by injection Hc as <-.
Qed.

Lemma single_dataset_lengths_agree_witness :
  ∃ self c envs,
    SupportSet.__init__ (OneDataset Toy.ds4) 2 (Some Toy.env4) = Ok self ∧
    SupportSet.combined_dataset self = Some c ∧
    SupportSet.env_datasets self = Some envs ∧
    SupportSet.y_array self = ud_targets Toy.ds4 ∧
    len_combined c = length (SupportSet.y_array self) ∧
    len_combined c = sum_list (len_subset <$> envs).
Proof. apply (single_dataset_lengths_agree Toy.ds4 2 (Some Toy.env4)); reflexivity. Defined.

(** X4: a non-empty single dataset given without an environment array is
    put as a whole into one environment: the environment array is all
    zeros, the only view indexes every item in order and carries the label
    array unchanged, and the environment map is [{0: 0}]. *)
Theorem single_dataset_one_environment d n :
  ud_len d = length (ud_targets d) → ud_len d ≠ 0%nat →
  let wrapped := {| dm_dataset := d; dm_metadata := replicate (ud_len d) 0 |} in
  SupportSet.__init__ (OneDataset d) n None
  = Ok {| SupportSet.y_array := ud_targets d;
          SupportSet.n_classes := n;
          SupportSet.env_array := replicate (ud_len d) 0;
          SupportSet.combined_dataset := Some (CombinedMeta wrapped);
          SupportSet.env_datasets :=
            Some [ {| subset_dataset := wrapped;
                      subset_indices := seq 0 (ud_len d);
                      subset_targets := ud_targets d |} ];
          SupportSet.env_map := Some {[ 0 := 0%nat ]} |}.
Proof.
  intros Hlen Hne wrapped.
  unfold SupportSet.__init__, SupportSet.all_items_are_datasets.
  rewrite bool_decide_eq_false_2 by done.
  unfold SupportSet._separate_env_datasets.
  cbn [SupportSet.y_array SupportSet.env_array].
  rewrite unique_replicate by done. cbn [SupportSet.separate_loop].
  rewrite take_nonzero by (rewrite length_replicate; lia).
  unfold nonzero_eq. rewrite nonzero_eq_from_replicate.
  subst wrapped. rewrite Hlen, labels_of_env_replicate. done.
Qed.

Lemma single_dataset_one_environment_witness :
  ∃ self,
    SupportSet.__init__ (OneDataset Toy.ds3) 3 None = Ok self ∧
    SupportSet.env_array self = [0; 0; 0] ∧
    (λ views : list Subset, subset_targets <$> views) <$> SupportSet.env_datasets self
    = Some [[0; 1; 2]].
Proof.
  eexists. split; [apply (single_dataset_one_environment Toy.ds3 3); done|].
  split; reflexivity.
Defined.

(** X5: the constructor does not compare the length of the environment
    array with the dataset.  An environment array that is shorter than the
    dataset is accepted: the support set is built, its views together hold
    only as many items as the array has ids, fewer than the combined
    view. *)
Theorem short_env_array_accepted d n env :
  ud_len d = length (ud_targets d) → (length env < ud_len d)%nat →
  ∃ self c envs,
    SupportSet.__init__ (OneDataset d) n (Some env) = Ok self ∧
    SupportSet.combined_dataset self = Some c ∧
    SupportSet.env_datasets self = Some envs ∧
    sum_list (len_subset <$> envs) = length env ∧
    (sum_list (len_subset <$> envs) < len_combined c)%nat.
Proof.
  intros Hlen Hshort.
  set (wrapped := {| dm_dataset := d; dm_metadata := env |}).
  set (self0 :=
    {| SupportSet.y_array := ud_targets d; SupportSet.n_classes := n;
       SupportSet.env_array := env;
       SupportSet.combined_dataset := Some (CombinedMeta wrapped);
       SupportSet.env_datasets := None; SupportSet.env_map := None |}).
  destruct (separate_ok self0 wrapped) as [m Hm]; [simpl; lia|].
  eexists _, (CombinedMeta wrapped), _.
  split; [unfold SupportSet.__init__; fold wrapped; fold self0; by rewrite Hm|].
  split; [done|]. split; [done|]. cbn [SupportSet.y_array SupportSet.env_array self0].
  rewrite sum_len_views_env by lia.
  split; [done|]. simpl. unfold len_meta. simpl. lia.
Qed.

Lemma short_env_array_accepted_witness :
  ∃ self c envs,
    SupportSet.__init__ (OneDataset Toy.ds4) 2 (Some Toy.env3) = Ok self ∧
    SupportSet.combined_dataset self = Some c ∧
    SupportSet.env_datasets self = Some envs ∧
    sum_list (len_subset <$> envs) = length Toy.env3 ∧
    (sum_list (len_subset <$> envs) < len_combined c)%nat.
Proof. apply (short_env_array_accepted Toy.ds4 2 Toy.env3); [reflexivity|simpl; lia]. Defined.



(** ** Recombination *)

Lemma identity_map_lookup n a i :
  SupportSet.identity_map n !! a = Some i ↔ a = Z.of_nat i ∧ (i < n)%nat.
Proof.
  unfold SupportSet.identity_map. rewrite <- elem_of_list_to_map.
  - rewrite list_elem_of_fmap. split.
    + intros (j & [= -> ->] & Hj). apply elem_of_seq in Hj. split; [done|lia].
    + intros [-> Hi]. exists i. split; [done|]. apply elem_of_seq. lia.
  - rewrite <- list_fmap_compose.
    apply (NoDup_fmap_2 (λ j : nat, Z.of_nat j)), NoDup_seq.
Qed.

(** X7: [_combine_env_datasets] takes the combined label array from the
    views stored on the object, not from its argument: called with a
    non-empty list of views on an object that stores a non-empty list of
    views, it returns the argument's views with the stored views' labels
    concatenated when the two have the same total length and fails with an
    AssertionError otherwise.  Either way it has replaced the environment
    map by the identity on the positions of the argument. *)
Theorem combine_reads_stored_views (self : SupportSet.t) (envs own : list Subset) :
  SupportSet.env_datasets self = Some own → envs ≠ [] → own ≠ [] →
  SupportSet._combine_env_datasets self envs
  = (if decide (sum_list (len_subset <$> envs)
                = length (concat (subset_targets <$> own)))
     then Ok {| concat_datasets := envs;
                concat_targets := concat (subset_targets <$> own) |}
     else Raise AssertionError,
     SupportSet.set_env_map self (SupportSet.identity_map (length envs))) ∧
  (∀ a i, SupportSet.identity_map (length envs) !! a = Some i
          ↔ a = Z.of_nat i ∧ (i < length envs)%nat).
Proof.
  intros Hown Hne Hown_ne. split; [|intros; apply identity_map_lookup].
  unfold SupportSet._combine_env_datasets. f_equal.
  destruct envs as [|e envs]; [done|].
  cbn [SupportSet.new_ConcatDataset mbind result_bind SupportSet.set_env_map
       SupportSet.env_datasets].
  rewrite Hown. cbn [getattr mbind result_bind].
  destruct own as [|o own]; [done|].
  rewrite (fmap_cons subset_targets). cbn [concatenate mbind result_bind].
  unfold len_concat. cbn [concat_datasets concat_targets].
  case_decide.
  - by rewrite bool_decide_eq_true_2.
  - by rewrite bool_decide_eq_false_2.
Qed.

Lemma combine_reads_stored_views_witness :
  ∃ self views c,
    SupportSet.__init__ (OneDataset Toy.ds3) 3 (Some Toy.env3) = Ok self ∧
    SupportSet.env_datasets self = Some views ∧
    fst (SupportSet._combine_env_datasets self (firstn 1 views)) = Raise AssertionError ∧
    fst (SupportSet._combine_env_datasets self views) = Ok c ∧
    concat_targets c = [1; 0; 2].
Proof.
  assert (∃ self, SupportSet.__init__ (OneDataset Toy.ds3) 3 (Some Toy.env3) = Ok self)
    as [self Hinit] by (vm_compute; eauto).
  destruct (SupportSet.env_datasets self) as [views|] eqn:Hv;
    [|vm_compute in Hinit; injection Hinit as <-; discriminate].
  pose proof (combine_reads_stored_views self (firstn 1 views) views Hv) as Hone.
  pose proof (combine_reads_stored_views self views views Hv) as Hall.
  exists self, views. vm_compute in Hinit. injection Hinit as <-.
  cbn in Hv. injection Hv as <-.
  destruct Hone as [Hone _]; [discriminate..|].
  destruct Hall as [Hall _]; [discriminate..|].
  eexists. split; [reflexivity|]. split; [reflexivity|].
  rewrite Hone, Hall. repeat split; reflexivity.
Defined.

(** ** More on the training provider *)

Section TrainMore.
Context {S X M : Type} `{!BalancedSampler S X M}.
Import SupportSetTrain.
Implicit Types (self : SupportSetTrain.t S) (y sy env_index : list Z) (rnd : Draws).

Lemma train_init_inv support_set n_classes tt n_shot n_way env_array self :
  __init__ support_set n_classes tt n_shot n_way env_array = Ok self →
  ∃ b it,
    SupportSet.__init__ support_set n_classes env_array = Ok b ∧
    _build_iter b tt n_shot n_way = Ok it ∧
    self = {| base := b; train_type := tt; n_shot := n_shot; n_way := n_way;
              train_iter := it; num_per_class := None |}.
Proof.
  unfold __init__. destruct (SupportSet.__init__ _ _ _) as [b|]; [|done].
  cbn [mbind result_bind].
  destruct (_build_iter _ _ _ _) as [it|] eqn:Hit; [|done].
  cbn [mbind result_bind]. intros [= <-]. by exists b, it.
Qed.

Lemma build_iter_list b tt n_shot n_way it :
  tt ≠ "random" → _build_iter b tt n_shot n_way = Ok it →
  ∃ l envs,
    it = IterList l ∧ SupportSet.env_datasets b = Some envs ∧ length l = length envs.
Proof.
  intros Hne. unfold _build_iter.
  destruct (String.eqb_spec tt "random") as [Heq|_]; [by destruct Hne|].
  destruct (SupportSet.env_datasets b) as [envs|]; [|done].
  cbn [getattr mbind result_bind].
  destruct (mapR _ envs) as [its|] eqn:Hits; [|done]. cbn [mbind result_bind].
  intros [= <-]. exists its, envs. repeat split. by eapply mapR_length.
Qed.

Lemma build_iter_one b n_shot n_way it :
  _build_iter b "random" n_shot n_way = Ok it →
  ∃ c s, SupportSet.combined_dataset b = Some c ∧
         InfiniteUniformClassLoader (FromCombined c) n_shot n_way = Ok s ∧
         it = OneLoader s.
Proof.
  unfold _build_iter. cbn [String.eqb Ascii.eqb Bool.eqb andb].
  destruct (SupportSet.combined_dataset b) as [c|]; [|done].
  cbn [getattr mbind result_bind].
  destruct (InfiniteUniformClassLoader _ _ _) as [s|] eqn:Hs; [|done].
  cbn [mbind result_bind]. intros [= <-]. by exists c, s.
Qed.

(** X8: under the [mixmatch] policy [get_support] looks neither at the
    label argument nor at the environment ids: the sampler is the one the
    random draw picks among the per-environment samplers, it is asked for
    a batch with [next()], and it is the only sampler that moves. *)
Theorem mixmatch_ignores_arguments self y1 y2 env_index1 env_index2 rnd :
  train_type self = "mixmatch" →
  get_support self y1 env_index1 rnd = get_support self y2 env_index2 rnd ∧
  (∀ l it, train_iter self = IterList l →
     l !! (choice rnd `mod` length l)%nat = Some it →
     sample self y1 env_index1 rnd
     = (fst (next it None),
        set_train_iter self
          (IterList (<[(choice rnd `mod` length l)%nat := snd (next it None)]> l)))).
Proof.
  intros Hmix.
  assert (∀ y e, sample self y e rnd = sample self [] [] rnd) as Hsample.
  { intros y e. unfold sample. by rewrite Hmix. }
  split.
  - unfold get_support. by rewrite (Hsample y1), (Hsample y2).
  - intros l it Hl Hit. unfold sample. rewrite Hmix.
    cbn [String.eqb Ascii.eqb Bool.eqb andb]. rewrite Hl, Hit.
    by destruct (next it None).
Qed.

(** X9: on an instance the class has produced, a call on which the audit is
    due never returns a batch.  If the sampler raised, that error reaches
    the caller; if it returned a batch, the audit raises an AssertionError
    or the AttributeError of [num_per_class].  The sampler has moved on
    all the same. *)
Theorem audited_call_never_returns self y env_index rnd :
  Reach.reachable self → audit_due rnd = true →
  match fst (sample self y env_index rnd) with
  | Raise e => fst (get_support self y env_index rnd) = Raise e
  | Ok _ =>
      fst (get_support self y env_index rnd) = Raise AssertionError ∨
      fst (get_support self y env_index rnd) = Raise missing_num_per_class
  end ∧
  snd (get_support self y env_index rnd) = snd (sample self y env_index rnd).
Proof.
  intros Hreach Hdue. split; [|apply get_support_state].
  pose proof (reachable_num_per_class _ (Reach.reach_get_support self y env_index rnd Hreach))
    as Hnone.
  rewrite get_support_state in Hnone. unfold get_support.
  destruct (sample self y env_index rnd) as [[batch|e] self']; cbn [fst snd] in *; [|done].
  cbn [mbind result_bind]. rewrite Hdue, verify_sy_unfold, Hnone.
  case_match; [by right|by left].
Qed.

(** X10: a provider constructed with a policy name other than [random],
    [match] and [mixmatch] (so with [unbalanced]) cannot sample: every
    [get_support] call raises an AttributeError, because the constructor
    stored a list of samplers and line 86 calls [next] on the list. *)
Theorem other_policies_cannot_sample support_set n_classes tt n_shot n_way env_array
    self y env_index rnd :
  __init__ support_set n_classes tt n_shot n_way env_array = Ok self →
  tt ∉ ["random"; "match"; "mixmatch"] →
  get_support self y env_index rnd
  = (Raise (AttributeError "'list' object has no attribute 'next'"), self).
Proof.
  intros Hinit Htt.
  apply train_init_inv in Hinit as (b & it & _ & Hit & ->).
  apply build_iter_list in Hit as (l & envs & -> & _ & _);
    [|intros ->; apply Htt; repeat constructor].
  unfold get_support, sample. cbn [train_type train_iter].
  destruct (String.eqb_spec tt "mixmatch") as [->|_];
    [exfalso; apply Htt; repeat constructor|].
  destruct (String.eqb_spec tt "match") as [->|_];
    [exfalso; apply Htt; repeat constructor|].
  done.
Qed.

(** X11: under the [match] policy an empty batch of environment ids makes
    [get_support] fail with an IndexError, and a batch of one id that the
    environment map does not hold makes it fail with a KeyError; in both
    cases no sampler moves. *)
Theorem match_rejects_empty_and_unknown self y rnd :
  train_type self = "match" →
  (∃ e, get_support self y [] rnd = (Raise e, self) ∧ exn_name e = "IndexError") ∧
  (∀ m e0 k,
     SupportSet.env_map (base self) = Some m → m !! e0 = None →
     ∃ e, get_support self y (replicate (Datatypes.S k) e0) rnd = (Raise e, self) ∧
          exn_name e = "KeyError").
Proof.
  intros Hmatch. split.
  - eexists. split; [unfold get_support, sample; by rewrite Hmatch|reflexivity].
  - intros m e0 k Hm He0. exists (KeyError "env_index[0]"). split; [|reflexivity].
    unfold get_support, sample. rewrite Hmatch.
    cbn [String.eqb Ascii.eqb Bool.eqb andb].
    rewrite all_equal_first_replicate, Hm. cbn [getattr replicate hd].
    rewrite He0. reflexivity.
Qed.

(** Drawing under [match] from a mapped environment. *)
Lemma sample_match self y e0 k m i l it rnd :
  train_type self = "match" →
  SupportSet.env_map (base self) = Some m → m !! e0 = Some i →
  train_iter self = IterList l → l !! i = Some it →
  sample self y (replicate (Datatypes.S k) e0) rnd
  = (fst (next it None),
     set_train_iter self (IterList (<[i := snd (next it None)]> l))).
Proof.
  intros Hmatch Hm Hi Hl Hit. unfold sample. rewrite Hmatch.
  cbn [String.eqb Ascii.eqb Bool.eqb andb].
  rewrite all_equal_first_replicate, Hm. cbn [getattr replicate hd].
  rewrite Hi, Hl, Hit. by destruct (next it None).
Qed.

(** X12: a provider constructed with the [match] policy from a dataset and
    an environment array has one sampler per distinct environment id, and
    a batch of ids that all equal an id of the array always reaches a
    sampler: the one at the rank of that id among the distinct ids.
    Neither the map lookup nor the list lookup can fail. *)
Theorem match_reaches_every_environment d n_classes n_shot n_way env self e0 :
  __init__ (OneDataset d) n_classes "match" n_shot n_way (Some env) = Ok self →
  e0 ∈ env →
  ∃ i l it,
    Np.unique env !! i = Some e0 ∧
    train_iter self = IterList l ∧ length l = length (Np.unique env) ∧
    l !! i = Some it ∧
    ∀ y k rnd,
      sample self y (replicate (Datatypes.S k) e0) rnd
      = (fst (next it None),
         set_train_iter self (IterList (<[i := snd (next it None)]> l))).
Proof.
  intros Hinit He0.
  apply train_init_inv in Hinit as (b & it0 & Hb & Hit0 & ->).
  apply build_iter_list in Hit0 as (l & envs & -> & Henvs & Hlen); [|done].
  apply init_with_env_inv in Hb as (m & views & -> & Hviews & Hin & _).
  cbn in Henvs. injection Henvs as <-.
  apply elem_of_unique, list_elem_of_lookup in He0 as [i Hi].
  assert (length l = length (Np.unique env)) as Hl.
  { rewrite Hlen. symmetry. by eapply Forall2_length. }
  destruct (lookup_lt_is_Some_2 l i) as [it Hit].
  { rewrite Hl. by eapply lookup_lt_Some. }
  exists i, l, it. repeat split; try done.
  intros y k rnd.
  apply (sample_match _ y e0 k m i l it rnd); [done|done|by apply Hin|done|done].
Qed.

(** X13: [get_support] keeps the samplers it does not draw from: after a
    call, whether it returned or raised, a provider with a list of samplers
    has a list of the same length that differs from the old one in at most
    one position, and a provider with one loader still has one loader. *)
Theorem get_support_keeps_other_samplers self y env_index rnd :
  match train_iter self with
  | IterList l =>
      ∃ l' i, train_iter (snd (get_support self y env_index rnd)) = IterList l' ∧
              length l' = length l ∧ ∀ j, j ≠ i → l' !! j = l !! j
  | OneLoader _ =>
      ∃ s', train_iter (snd (get_support self y env_index rnd)) = OneLoader s'
  end.
Proof.
  rewrite get_support_state. unfold sample.
  destruct (train_iter self) as [s|l] eqn:Hit.
  - repeat (case_match; cbn [snd set_train_iter train_iter]; try by eauto).
  - assert (∀ i it', ∃ l' i0, IterList (<[i:=it']> l) = IterList l' ∧
              length l' = length l ∧ ∀ j, j ≠ i0 → l' !! j = l !! j) as Hmove.
    { intros i it'. exists (<[i:=it']> l), i. split; [done|].
      split; [apply length_insert|]. intros j Hj. by apply list_lookup_insert_ne. }
    assert (∃ l' i0, IterList l = IterList l' ∧
              length l' = length l ∧ ∀ j, j ≠ i0 → l' !! j = l !! j) as Hstay.
    { by exists l, 0%nat. }
    repeat (case_match; cbn [snd set_train_iter train_iter]; rewrite ?Hit;
            try done; try apply Hmove; try apply Hstay).
Qed.

End TrainMore.

Lemma mixmatch_ignores_arguments_witness :
  ∃ self,
    SupportSetTrain.__init__ (S:=Toy.Recorder) (OneDataset Toy.ds4) 2 "mixmatch" 1 None
      (Some Toy.env4) = Ok self ∧
    SupportSetTrain.get_support self [0] [1; 1] Toy.unaudited
    = SupportSetTrain.get_support self [1] [2; 1] Toy.unaudited.
Proof.
  eexists. split; [run|].
  eapply proj1. apply mixmatch_ignores_arguments. reflexivity.
Defined.

Lemma audited_call_never_returns_witness :
  ∃ self,
    SupportSetTrain.__init__ (S:=Toy.Recorder) (OneDataset Toy.ds4) 2 "match" 1 None
      (Some Toy.env4) = Ok self ∧
    fst (SupportSetTrain.get_support self [0] [2; 2] Toy.audited)
    = Raise SupportSetTrain.missing_num_per_class ∧
    SupportSetTrain.train_iter (snd (SupportSetTrain.get_support self [0] [2; 2] Toy.audited))
    = SupportSetTrain.IterList
        [{| Toy.pool := [0; 1]; Toy.calls := [] |};
         {| Toy.pool := [0; 1]; Toy.calls := [None] |}].
Proof.
  assert (∃ self, SupportSetTrain.__init__ (S:=Toy.Recorder) (OneDataset Toy.ds4) 2
                    "match" 1 None (Some Toy.env4) = Ok self)
    as [self Hinit] by (vm_compute; eauto).
  exists self. split; [exact Hinit|].
  destruct (audited_call_never_returns self [0] [2; 2] Toy.audited) as [Hres Hstate].
  { by eapply Reach.reach_init. }
  { reflexivity. }
  rewrite Hstate. vm_compute in Hinit. injection Hinit as <-.
  split; [|reflexivity]. cbn in Hres. destruct Hres as [Hres|Hres]; [|exact Hres].
  vm_compute in Hres. discriminate.
Defined.

Lemma other_policies_cannot_sample_witness :
  ∃ self,
    SupportSetTrain.__init__ (S:=Toy.Recorder) (OneDataset Toy.ds4) 2 "unbalanced" 1 None
      (Some Toy.env4) = Ok self ∧
    SupportSetTrain.get_support self [0] [1; 1] Toy.unaudited
    = (Raise (AttributeError "'list' object has no attribute 'next'"), self).
Proof.
  eexists. split; [run|].
  eapply (other_policies_cannot_sample (OneDataset Toy.ds4) 2%nat "unbalanced" 1%nat None
            (Some Toy.env4)); [run|].
  rewrite !elem_of_cons, elem_of_nil.
  intros Hin. repeat (destruct Hin as [Hin|Hin]; [discriminate|]). done.
Defined.

Lemma match_rejects_empty_and_unknown_witness :
  ∃ self e,
    SupportSetTrain.__init__ (S:=Toy.Recorder) (OneDataset Toy.ds4) 2 "match" 1 None
      (Some Toy.env4) = Ok self ∧
    SupportSetTrain.get_support self [0] [] Toy.unaudited = (Raise e, self) ∧
    exn_name e = "IndexError".
Proof.
  assert (∃ self, SupportSetTrain.__init__ (S:=Toy.Recorder) (OneDataset Toy.ds4) 2
                    "match" 1 None (Some Toy.env4) = Ok self)
    as [self Hinit] by (vm_compute; eauto).
  destruct (match_rejects_empty_and_unknown self [0] Toy.unaudited) as [(e & He & Hn) _].
  { vm_compute in Hinit. by injection Hinit as <-. }
  by exists self, e.
Defined.

Lemma match_reaches_every_environment_witness :
  ∃ self,
    SupportSetTrain.__init__ (S:=Toy.Recorder) (OneDataset Toy.ds4) 2 "match" 1 None
      (Some Toy.env4) = Ok self ∧
    ∃ i l it,
      Np.unique Toy.env4 !! i = Some 2 ∧
      SupportSetTrain.train_iter self = SupportSetTrain.IterList l ∧
      length l = length (Np.unique Toy.env4) ∧ l !! i = Some it ∧
      ∀ y k rnd,
        SupportSetTrain.sample self y (replicate (Datatypes.S k) 2) rnd
        = (fst (next it None),
           SupportSetTrain.set_train_iter self
             (SupportSetTrain.IterList (<[i := snd (next it None)]> l))).
Proof.
  assert (∃ self, SupportSetTrain.__init__ (S:=Toy.Recorder) (OneDataset Toy.ds4) 2
                    "match" 1 None (Some Toy.env4) = Ok self)
    as [self Hinit] by (vm_compute; eauto).
  exists self. split; [exact Hinit|].
  apply (match_reaches_every_environment Toy.ds4 2%nat 1%nat None Toy.env4 self 2 Hinit).
  unfold Toy.env4. rewrite !elem_of_cons. tauto.
Defined.

(** ** More on the evaluation provider *)

Section EvalMore.
Context {V Mt Qy R K H F : Type} `{!EvalCollaborators V Mt Qy R K H F}.
Import SupportSetEval.
Implicit Types (self : SupportSetEval.t V Mt R K H F) (mode : string) (x : option Qy).

(** A completed [build_infer_iters], step by step. *)
Lemma build_infer_iters_inv self sfeat sy smeta sfeat_env sy_env smeta_env self' :
  build_infer_iters self sfeat sy smeta sfeat_env sy_env smeta_env = (Ok tt, self') →
  ∃ cf cy r k h,
    _compute_clusters (set_full self sfeat sy smeta sfeat_env sy_env smeta_env)
      = Ok (cf, cy) ∧
    feature_iter sfeat sy smeta (n_shot_random self) = Ok r ∧
    KNN sfeat sy (n_neighbors self) = Ok k ∧
    HNSW sfeat sy (n_neighbors self) = Ok h ∧
    self' = set_hnsw (set_knn (set_random_iter
              (set_cluster (set_full self sfeat sy smeta sfeat_env sy_env smeta_env)
                 cf cy) r) k) h.
Proof.
  unfold build_infer_iters.
  destruct (_compute_clusters _) as [[cf cy]|]; [|done].
  cbn [set_cluster set_full n_shot_random n_neighbors].
  destruct (feature_iter _ _ _ _) as [r|] eqn:Hr; [|done].
  cbn [set_random_iter n_neighbors].
  destruct (KNN _ _ _) as [k|] eqn:Hk; [|done].
  cbn [set_knn n_neighbors].
  destruct (HNSW _ _ _) as [h|] eqn:Hh; [|done].
  intros [= <-]. by exists cf, cy, r, k, h.
Qed.

Lemma get_support_ok self mode x s self' :
  handler self mode x = (Ok s, self') → get_support self mode x = (Ok s, self').
Proof. unfold get_support. by intros ->. Qed.

(** X14: after a completed [build_infer_iters] the modes [full], [ensemble]
    and [cluster] return what was stored: the combined features and labels
    that were passed in, the per-environment lists that were passed in, and
    the cluster prototypes with their labels.  They take no query into
    account and leave the provider as it is. *)
Theorem cached_modes_return_stored self sfeat sy smeta sfeat_env sy_env smeta_env self' x :
  build_infer_iters self sfeat sy smeta sfeat_env sy_env smeta_env = (Ok tt, self') →
  get_support self' "full" x = (Ok (Tensors sfeat sy), self') ∧
  get_support self' "ensemble" x = (Ok (PerEnv sfeat_env sy_env), self') ∧
  ∃ cf cy,
    cluster_feat self' = Some cf ∧ cluster_y self' = Some cy ∧
    get_support self' "cluster" x = (Ok (Tensors cf cy), self').
Proof.
  intros Hbuild.
  apply build_infer_iters_inv in Hbuild as (cf & cy & r & k & h & _ & _ & _ & _ & ->).
  split; [done|]. split; [done|]. by exists cf, cy.
Qed.

(** X15: after a completed [build_infer_iters] the modes [knn] and [hnsw]
    query the index that was built over the combined features and labels
    with [n_neighbors], and the mode [random] draws from the iterator that
    was built over them with [n_shot_random]: it returns the features and
    labels of the batch, drops its metadata, and moves the iterator on. *)
Theorem collaborator_modes_after_precompute self sfeat sy smeta sfeat_env sy_env
    smeta_env self' x :
  build_infer_iters self sfeat sy smeta sfeat_env sy_env smeta_env = (Ok tt, self') →
  ∃ r k h,
    feature_iter sfeat sy smeta (n_shot_random self) = Ok r ∧
    KNN sfeat sy (n_neighbors self) = Ok k ∧
    HNSW sfeat sy (n_neighbors self) = Ok h ∧
    (∀ f y, knn_call k x = Ok (f, y) →
            get_support self' "knn" x = (Ok (Tensors f y), self')) ∧
    (∀ f y, hnsw_call h x = Ok (f, y) →
            get_support self' "hnsw" x = (Ok (Tensors f y), self')) ∧
    (∀ f y mt r', feature_next r = (Ok (f, y, mt), r') →
                  get_support self' "random" x
                  = (Ok (Tensors f y), set_random_iter self' r')).
Proof.
  intros Hbuild.
  apply build_infer_iters_inv in Hbuild as (cf & cy & r & k & h & _ & Hr & Hk & Hh & ->).
  exists r, k, h. repeat split; try done.
  - intros f y Hcall. apply get_support_ok. unfold handler.
    cbn [String.eqb Ascii.eqb Bool.eqb andb set_hnsw set_knn knn getattr mbind
         result_bind].
    by rewrite Hcall.
  - intros f y Hcall. apply get_support_ok. unfold handler.
    cbn [String.eqb Ascii.eqb Bool.eqb andb set_hnsw hnsw getattr mbind result_bind].
    by rewrite Hcall.
  - intros f y mt r' Hnext. apply get_support_ok. unfold handler.
    cbn [String.eqb Ascii.eqb Bool.eqb andb set_hnsw set_knn set_random_iter
         random_iter getattr].
    by rewrite Hnext.
Qed.

Lemma get_support_state_eval self mode x :
  snd (get_support self mode x) = snd (handler self mode x).
Proof.
  unfold get_support. destruct (handler self mode x) as [[s|e] self']; [done|].
  by case_match.
Qed.

(** X16: only the mode [random] changes the provider.  A call with any
    other mode value, known or not, before or after the precompute,
    returning or raising, leaves every attribute as it was. *)
Theorem only_random_moves_the_provider self mode x :
  mode ≠ "random" → snd (get_support self mode x) = self.
Proof.
  intros Hmode. rewrite get_support_state_eval. unfold handler.
  destruct (String.eqb_spec mode "random") as [Heq|_]; [by destruct Hmode|].
  repeat case_match; done.
Qed.

(** X17: when the clustering step of [build_infer_iters] raises, the call
    raises the same error and the provider keeps the attributes assigned
    before it: on a provider that was just constructed, the modes [full]
    and [ensemble] then answer with the data passed in, while [cluster],
    [random], [knn] and [hnsw] still raise the AttributeError of a provider
    that was not precomputed. *)
Theorem failed_clustering_leaves_full_only support_set n_classes n_shot_random
    n_shot_full n_shot_cluster n_neighbors env_array self sfeat sy smeta sfeat_env
    sy_env smeta_env e x :
  __init__ support_set n_classes n_shot_random n_shot_full n_shot_cluster
    n_neighbors env_array = Ok self →
  _compute_clusters (set_full self sfeat sy smeta sfeat_env sy_env smeta_env) = Raise e →
  let self1 := set_full self sfeat sy smeta sfeat_env sy_env smeta_env in
  build_infer_iters self sfeat sy smeta sfeat_env sy_env smeta_env = (Raise e, self1) ∧
  get_support self1 "full" x = (Ok (Tensors sfeat sy), self1) ∧
  get_support self1 "ensemble" x = (Ok (PerEnv sfeat_env sy_env), self1) ∧
  (∀ mode, mode ∈ ["cluster"; "random"; "knn"; "hnsw"] →
     get_support self1 mode x
     = (Raise (AttributeError "Did you run precompute()?"), self1)).
Proof.
  intros Hinit Hcc self1. apply init_fresh in Hinit.
  destruct Hinit as (_ & _ & _ & _ & Hcf & Hcy & Hri & Hknn & Hhnsw).
  split; [unfold build_infer_iters; by rewrite Hcc|].
  split; [done|]. split; [done|].
  intros mode Hmode. unfold get_support, handler.
  repeat (apply elem_of_cons in Hmode as [->|Hmode];
          [cbn [String.eqb Ascii.eqb Bool.eqb andb self1 set_full cluster_feat
                cluster_y random_iter knn hnsw];
           rewrite ?Hcf, ?Hcy, ?Hri, ?Hknn, ?Hhnsw; reflexivity|]).
  by apply elem_of_nil in Hmode.
Qed.

Lemma mask_eq_mismatch {A} (a : list A) labels c :
  length a ≠ length labels →
  ∃ e, Np.mask_eq a labels c = Raise e ∧ exn_name e = "IndexError".
Proof.
  revert labels. induction a as [|x a IH]; intros [|l labels] Hlen; try done.
  - eexists. split; reflexivity.
  - eexists. split; reflexivity.
  - destruct (IH labels) as (e & He & Hn); [simpl in Hlen; lia|].
    exists e. cbn [Np.mask_eq]. by rewrite He.
Qed.

(** X18: [build_infer_iters] does not check its inputs; the clustering
    step meets them.  With an empty label set it does not complete: no
    class is clustered and the concatenation of no prototypes raises.
    With a non-empty label set whose length differs from the number of
    feature rows it raises the IndexError of the first boolean mask,
    before any clustering.  In both cases only the attributes of the full
    feature set have been assigned. *)
Theorem build_infer_iters_bad_inputs self sfeat sy smeta sfeat_env sy_env smeta_env :
  (sy = [] →
   ∃ e, build_infer_iters self sfeat sy smeta sfeat_env sy_env smeta_env
        = (Raise e, set_full self sfeat sy smeta sfeat_env sy_env smeta_env)) ∧
  (sy ≠ [] → length sfeat ≠ length sy →
   ∃ e, build_infer_iters self sfeat sy smeta sfeat_env sy_env smeta_env
        = (Raise e, set_full self sfeat sy smeta sfeat_env sy_env smeta_env) ∧
        exn_name e = "IndexError").
Proof.
  split.
  - intros ->. eexists. reflexivity.
  - intros Hne Hlen.
    destruct (Np.unique sy) as [|c classes] eqn:Hu.
    { destruct sy as [|l sy]; [done|].
      assert (l ∈ Np.unique (l :: sy)) as Hin by (apply elem_of_unique; left).
      rewrite Hu in Hin. by apply elem_of_nil in Hin. }
    destruct (mask_eq_mismatch sfeat sy c Hlen) as (e & He & Hn).
    exists e. split; [|done].
    unfold build_infer_iters, _compute_clusters.
    cbn [set_full full_feat full_y n_shot_cluster getattr mbind result_bind].
    rewrite Hu. cbn [clusters_loop]. rewrite He. reflexivity.
Qed.

(** The loop stops at the first class on which the clustering raises. *)
Lemma clusters_loop_first_failure embeddings labels n pre c post rows e sfeat slabel :
  length embeddings = length labels →
  (∀ c', c' ∈ pre → ∃ rows' cen, Np.mask_eq embeddings labels c' = Ok rows' ∧
                                 KMeans_fit n rows' = Ok cen) →
  Np.mask_eq embeddings labels c = Ok rows → KMeans_fit n rows = Raise e →
  clusters_loop embeddings labels (Np.arange (length embeddings)) n (pre ++ c :: post)
    sfeat slabel = Raise e.
Proof.
  intros Hlen Hpre Hrows Hfit. revert sfeat slabel.
  assert (∀ c', ∃ ids, Np.mask_eq (Np.arange (length embeddings)) labels c' = Ok ids)
    as Hids.
  { intros c'. apply mask_eq_ok. unfold Np.arange. by rewrite length_fmap, length_seq. }
  induction pre as [|c' pre IH]; intros sfeat slabel; cbn [app clusters_loop].
  - destruct (Hids c) as [ids ->]. rewrite Hrows. cbn [mbind result_bind].
    by rewrite Hfit.
  - destruct (Hpre c') as (rows' & cen & -> & Hcen); [left|].
    destruct (Hids c') as [ids ->]. cbn [mbind result_bind]. rewrite Hcen.
    cbn [mbind result_bind]. apply IH. intros. apply Hpre. by right.
Qed.

(** X19: an error of the clustering primitive is not handled: when it
    raises on the feature rows of some class, after succeeding on the
    classes with smaller labels, [build_infer_iters] raises that same
    error, the classes with larger labels are not clustered, and only the
    attributes of the full feature set have been assigned. *)
Theorem clustering_error_propagates self sfeat sy smeta sfeat_env sy_env smeta_env
    pre c post rows e :
  length sfeat = length sy →
  Np.unique sy = pre ++ c :: post →
  (∀ c', c' ∈ pre → ∃ rows' cen, Np.mask_eq sfeat sy c' = Ok rows' ∧
                                 KMeans_fit (n_shot_cluster self) rows' = Ok cen) →
  Np.mask_eq sfeat sy c = Ok rows →
  KMeans_fit (n_shot_cluster self) rows = Raise e →
  build_infer_iters self sfeat sy smeta sfeat_env sy_env smeta_env
  = (Raise e, set_full self sfeat sy smeta sfeat_env sy_env smeta_env).
Proof.
  intros Hlen Hu Hpre Hrows Hfit. unfold build_infer_iters, _compute_clusters.
  cbn [set_full full_feat full_y n_shot_cluster getattr mbind result_bind].
  rewrite Hu.
  by rewrite (clusters_loop_first_failure sfeat sy _ pre c post rows e [] [] Hlen Hpre
                Hrows Hfit).
Qed.

(** X20: a constructed evaluation provider has one full dataset and one
    loader per environment view, in the order of the views; every loader
    wraps the full dataset at its position, takes batches of 128, does not
    shuffle and uses no worker. *)
Theorem full_loaders_follow_views support_set n_classes n_shot_random' n_shot_full'
    n_shot_cluster' n_neighbors' env_array self :
  __init__ support_set n_classes n_shot_random' n_shot_full' n_shot_cluster'
    n_neighbors' env_array = Ok self →
  ∃ views,
    SupportSet.env_datasets (base self) = Some views ∧
    mapR (λ env, FullDataset env n_shot_full') views = Ok (full_datasets self) ∧
    length (full_datasets self) = length views ∧
    dl_dataset <$> support_loaders self = full_datasets self ∧
    Forall (λ dl, dl_batch_size dl = 128%nat ∧ dl_shuffle dl = false ∧
                  dl_num_workers dl = 0%nat) (support_loaders self).
Proof.
  unfold __init__. destruct (SupportSet.__init__ _ _ _) as [b|]; [|done].
  cbn [mbind result_bind]. unfold _build_full_loader.
  destruct (SupportSet.env_datasets b) as [views|] eqn:Hviews; [|done].
  cbn [getattr mbind result_bind].
  destruct (mapR _ views) as [fds|] eqn:Hfds; [|done]. cbn [mbind result_bind].
  intros [= <-]. exists views. cbn [base full_datasets support_loaders fst snd].
  split; [done|]. split; [done|]. split; [by eapply mapR_length|].
  split.
  - clear. induction fds as [|fd fds IH]; [done|]. cbn. by rewrite IH.
  - clear. induction fds as [|fd fds IH]; constructor; done.
Qed.

End EvalMore.

(** *** The evaluation provider on concrete collaborators, continued *)

Lemma toy_precomputed :
  ∃ self self',
    SupportSetEval.__init__ (OneDataset Toy.ds6) 3 1 1 2 2 None = Ok self ∧
    SupportSetEval.build_infer_iters self Toy.feat6 Toy.y6 tt [Toy.feat6] [Toy.y6] [tt]
      = (Ok tt, self').
Proof.
  assert (∃ self, SupportSetEval.__init__ (OneDataset Toy.ds6) 3 1 1 2 2 None = Ok self)
    as [self Hinit] by (vm_compute; eauto).
  exists self. revert Hinit. vm_compute. intros [= <-]. eauto.
Qed.

Lemma cached_modes_return_stored_witness :
  ∃ self self',
    SupportSetEval.build_infer_iters self Toy.feat6 Toy.y6 tt [Toy.feat6] [Toy.y6] [tt]
      = (Ok tt, self') ∧
    SupportSetEval.get_support self' "full" (Some 5)
    = (Ok (SupportSetEval.Tensors Toy.feat6 Toy.y6), self') ∧
    SupportSetEval.get_support self' "ensemble" None
    = (Ok (SupportSetEval.PerEnv [Toy.feat6] [Toy.y6]), self').
Proof.
  destruct toy_precomputed as (self & self' & _ & Hbuild).
  exists self, self'. split; [exact Hbuild|].
  split.
  - apply (cached_modes_return_stored self _ _ _ _ _ _ self' (Some 5) Hbuild).
  - apply (cached_modes_return_stored self _ _ _ _ _ _ self' None Hbuild).
Defined.

Lemma collaborator_modes_after_precompute_witness :
  ∃ self self',
    SupportSetEval.build_infer_iters self Toy.feat6 Toy.y6 tt [Toy.feat6] [Toy.y6] [tt]
      = (Ok tt, self') ∧
    SupportSetEval.n_neighbors self = 2%nat ∧
    SupportSetEval.get_support self' "knn" (Some 5)
    = (Ok (SupportSetEval.Tensors [100; 200] [0; 1]), self').
Proof.
  destruct toy_precomputed as (self & self' & Hinit & Hbuild).
  exists self, self'. split; [exact Hbuild|].
  destruct (collaborator_modes_after_precompute self _ _ _ _ _ _ self' (Some 5) Hbuild)
    as (r & k & h & _ & Hk & _ & Hknn & _).
  vm_compute in Hinit. injection Hinit as <-. split; [reflexivity|].
  apply Hknn. cbn in Hk. injection Hk as <-. reflexivity.
Defined.

Lemma only_random_moves_the_provider_witness :
  ∃ self self',
    SupportSetEval.build_infer_iters self Toy.feat6 Toy.y6 tt [Toy.feat6] [Toy.y6] [tt]
      = (Ok tt, self') ∧
    snd (SupportSetEval.get_support self' "hnsw" None) = self' ∧
    snd (SupportSetEval.get_support self "nearest" (Some 5)) = self.
Proof.
  destruct toy_precomputed as (self & self' & _ & Hbuild).
  exists self, self'. split; [exact Hbuild|].
  split; by apply only_random_moves_the_provider.
Defined.

Lemma failed_clustering_leaves_full_only_witness :
  ∃ self e,
    SupportSetEval.__init__ (OneDataset Toy.ds6) 3 1 1 3 2 None = Ok self ∧
    let self1 := SupportSetEval.set_full self Toy.feat6 Toy.y6 tt [Toy.feat6] [Toy.y6] [tt] in
    SupportSetEval.build_infer_iters self Toy.feat6 Toy.y6 tt [Toy.feat6] [Toy.y6] [tt]
      = (Raise e, self1) ∧
    exn_name e = "ValueError" ∧
    SupportSetEval.get_support self1 "full" None
    = (Ok (SupportSetEval.Tensors Toy.feat6 Toy.y6), self1) ∧
    SupportSetEval.get_support self1 "cluster" None
    = (Raise (AttributeError "Did you run precompute()?"), self1).
Proof.
  assert (∃ self, SupportSetEval.__init__ (OneDataset Toy.ds6) 3 1 1 3 2 None = Ok self)
    as [self Hinit] by (vm_compute; eauto).
  exists self, (ValueError "n_samples should be >= n_clusters").
  split; [exact Hinit|]. intros self1.
  destruct (failed_clustering_leaves_full_only (OneDataset Toy.ds6) 3%nat 1%nat 1%nat
              3%nat 2%nat None self Toy.feat6 Toy.y6 tt [Toy.feat6] [Toy.y6] [tt]
              (ValueError "n_samples should be >= n_clusters") None Hinit)
    as (Hbuild & Hfull & _ & Hrest).
  { vm_compute in Hinit. injection Hinit as <-. reflexivity. }
  split; [exact Hbuild|]. split; [reflexivity|]. split; [exact Hfull|].
  apply Hrest. rewrite !elem_of_cons. tauto.
Defined.

Lemma build_infer_iters_bad_inputs_witness :
  ∃ self e1 e2,
    SupportSetEval.__init__ (OneDataset Toy.ds6) 3 1 1 2 2 None = Ok self ∧
    SupportSetEval.build_infer_iters self [] [] tt [] [] []
    = (Raise e1, SupportSetEval.set_full self [] [] tt [] [] []) ∧
    SupportSetEval.build_infer_iters self Toy.feat6 [0; 1] tt [] [] []
    = (Raise e2, SupportSetEval.set_full self Toy.feat6 [0; 1] tt [] [] []) ∧
    exn_name e2 = "IndexError".
Proof.
  assert (∃ self, SupportSetEval.__init__ (OneDataset Toy.ds6) 3 1 1 2 2 None = Ok self)
    as [self Hinit] by (vm_compute; eauto).
  destruct (build_infer_iters_bad_inputs self [] [] tt [] [] []) as [Hempty _].
  destruct (build_infer_iters_bad_inputs self Toy.feat6 [0; 1] tt [] [] []) as [_ Hlen].
  destruct Hempty as (e1 & He1); [done|].
  destruct Hlen as (e2 & He2 & Hn2); [done|simpl; lia|].
  by exists self, e1, e2.
Defined.

Lemma clustering_error_propagates_witness :
  ∃ self,
    SupportSetEval.__init__ (OneDataset Toy.ds6) 3 1 1 3 2 None = Ok self ∧
    SupportSetEval.build_infer_iters self Toy.feat6 Toy.y6 tt [Toy.feat6] [Toy.y6] [tt]
    = (Raise (ValueError "n_samples should be >= n_clusters"),
       SupportSetEval.set_full self Toy.feat6 Toy.y6 tt [Toy.feat6] [Toy.y6] [tt]).
Proof.
  assert (∃ self, SupportSetEval.__init__ (OneDataset Toy.ds6) 3 1 1 3 2 None = Ok self)
    as [self Hinit] by (vm_compute; eauto).
  exists self. split; [exact Hinit|].
  apply (clustering_error_propagates self Toy.feat6 Toy.y6 tt [Toy.feat6] [Toy.y6] [tt]
           [] 0 [1; 2] [100; 101]).
  - reflexivity.
  - reflexivity.
  - intros c' Hc'. by apply elem_of_nil in Hc'.
  - reflexivity.
  - vm_compute in Hinit. injection Hinit as <-. reflexivity.
Defined.

Lemma full_loaders_follow_views_witness :
  ∃ self views,
    SupportSetEval.__init__ (OneDataset Toy.ds4) 2 1 1 2 2 (Some Toy.env4) = Ok self ∧
    SupportSet.env_datasets (SupportSetEval.base self) = Some views ∧
    length views = 2%nat ∧
    SupportSetEval.dl_dataset <$> SupportSetEval.support_loaders self = views.
Proof.
  assert (∃ self, SupportSetEval.__init__ (OneDataset Toy.ds4) 2 1 1 2 2 (Some Toy.env4)
                  = Ok self) as [self Hinit] by (vm_compute; eauto).
  destruct (full_loaders_follow_views (OneDataset Toy.ds4) 2%nat 1%nat 1%nat 2%nat 2%nat
              (Some Toy.env4) self Hinit) as (views & Hviews & Hfds & _ & Hdl & _).
  exists self, views. split; [exact Hinit|]. split; [exact Hviews|].
  rewrite Hdl. vm_compute in Hinit. injection Hinit as <-.
  cbn in Hviews. injection Hviews as <-. split; reflexivity.
Defined.

(** ** The samplers a training provider is built with *)

Section TrainSamplers.
Context {S X M : Type} `{!BalancedSampler S X M}.
Import SupportSetTrain.
Implicit Types (self : SupportSetTrain.t S) (y sy env_index : list Z) (rnd : Draws).

(** X21: a provider constructed with the [random] policy holds one loader,
    built over the combined dataset with [n_shot] and [n_way], and every
    [get_support] call asks this loader for a batch with the label
    argument, whatever the environment ids and the random draw are. *)
Theorem random_provider_uses_combined_loader support_set n_classes n_shot' n_way'
    env_array self :
  __init__ support_set n_classes "random" n_shot' n_way' env_array = Ok self →
  ∃ c s,
    SupportSet.combined_dataset (base self) = Some c ∧
    InfiniteUniformClassLoader (FromCombined c) n_shot' n_way' = Ok s ∧
    train_iter self = OneLoader s ∧
    ∀ y env_index rnd,
      sample self y env_index rnd
      = (fst (next s (Some y)), set_train_iter self (OneLoader (snd (next s (Some y))))).
Proof.
  intros Hinit. apply train_init_inv in Hinit as (b & it & _ & Hit & ->).
  apply build_iter_one in Hit as (c & s & Hc & Hs & ->).
  exists c, s. repeat split; try done.
  intros y env_index rnd. unfold sample. cbn [train_type train_iter].
  cbn [String.eqb Ascii.eqb Bool.eqb andb]. by destruct (next s (Some y)).
Qed.

(** X22: under every policy but [random] the class count [n_way] plays no
    part: the constructor builds one sampler per environment view, each
    over that view with [n_shot] alone, so two constructions that differ
    only in [n_way] succeed or fail together and yield the same samplers
    over the same support set. *)
Theorem n_way_unused_outside_random support_set n_classes policy n_shot' n_way1 n_way2
    env_array self1 :
  policy ≠ "random" →
  __init__ support_set n_classes policy n_shot' n_way1 env_array = Ok self1 →
  ∃ self2 views l,
    __init__ support_set n_classes policy n_shot' n_way2 env_array = Ok self2 ∧
    base self2 = base self1 ∧ train_iter self2 = train_iter self1 ∧
    SupportSet.env_datasets (base self1) = Some views ∧
    train_iter self1 = IterList l ∧
    mapR (λ env, loader ← InfiniteUniformClassLoader (FromSubset env) n_shot' None;
                 iter loader) views = Ok l.
Proof.
  intros Hpolicy Hinit. apply train_init_inv in Hinit as (b & it & Hb & Hit & ->).
  assert (_build_iter b policy n_shot' n_way2 = Ok it) as Hit2.
  { revert Hit. unfold _build_iter.
    by destruct (String.eqb_spec policy "random") as [Heq|_]; [destruct Hpolicy|]. }
  eexists _.
  assert (∃ views l, SupportSet.env_datasets b = Some views ∧ it = IterList l ∧
            mapR (λ env, loader ← InfiniteUniformClassLoader (FromSubset env) n_shot' None;
                         iter loader) views = Ok l) as (views & l & Hviews & -> & Hl).
  { revert Hit. unfold _build_iter.
    destruct (String.eqb_spec policy "random") as [Heq|_]; [by destruct Hpolicy|].
    destruct (SupportSet.env_datasets b) as [views|]; [|done].
    cbn [getattr mbind result_bind].
    destruct (mapR _ views) as [l|] eqn:Hl; [|done]. cbn [mbind result_bind].
    intros [= <-]. by exists views, l. }
  exists views, l. split.
  - unfold __init__. rewrite Hb. cbn [mbind result_bind]. rewrite Hit2. reflexivity.
  - done.
Qed.

End TrainSamplers.

Lemma random_provider_uses_combined_loader_witness :
  ∃ self s,
    SupportSetTrain.__init__ (S:=Toy.Recorder) (OneDataset Toy.ds4) 2 "random" 1 (Some 2%nat)
      (Some Toy.env4) = Ok self ∧
    SupportSetTrain.train_iter self = SupportSetTrain.OneLoader s ∧
    Toy.pool s = [0; 1] ∧
    fst (SupportSetTrain.sample self [1] [9] Toy.unaudited) = fst (next s (Some [1])).
Proof.
  assert (∃ self, SupportSetTrain.__init__ (S:=Toy.Recorder) (OneDataset Toy.ds4) 2
                    "random" 1 (Some 2%nat) (Some Toy.env4) = Ok self)
    as [self Hinit] by (vm_compute; eauto).
  destruct (random_provider_uses_combined_loader (OneDataset Toy.ds4) 2%nat 1%nat
              (Some 2%nat) (Some Toy.env4) self Hinit) as (c & s & Hc & Hs & Hit & Hsample).
  exists self, s. split; [exact Hinit|]. split; [exact Hit|].
  rewrite Hsample. split; [|reflexivity].
  vm_compute in Hinit. injection Hinit as <-. cbn in Hc. injection Hc as <-.
  cbn in Hs. by injection Hs as <-.
Defined.

Lemma n_way_unused_outside_random_witness :
  ∃ self1 self2,
    SupportSetTrain.__init__ (S:=Toy.Recorder) (OneDataset Toy.ds4) 2 "match" 1 None
      (Some Toy.env4) = Ok self1 ∧
    SupportSetTrain.__init__ (S:=Toy.Recorder) (OneDataset Toy.ds4) 2 "match" 1 (Some 1%nat)
      (Some Toy.env4) = Ok self2 ∧
    SupportSetTrain.train_iter self2 = SupportSetTrain.train_iter self1.
Proof.
  assert (∃ self, SupportSetTrain.__init__ (S:=Toy.Recorder) (OneDataset Toy.ds4) 2
                    "match" 1 None (Some Toy.env4) = Ok self)
    as [self1 Hinit] by (vm_compute; eauto).
  destruct (n_way_unused_outside_random (OneDataset Toy.ds4) 2%nat "match" 1%nat None
              (Some 1%nat) (Some Toy.env4) self1) as (self2 & _ & _ & H2 & _ & Hit & _);
    [done|exact Hinit|].
  by exists self1, self2.
Defined.
